(** * smart-stream: message registry, random assistant and function-schema editor

    A shallow embedding of
      - [src/ai_stream/components/messages.py]   (the message registry),
      - [src/ai_stream/components/assistant.py]  (the random response generator),
      - [src/ai_stream/configurations/function_tools.py] (the schema editor),
      - [src/ai_stream/utils/app_state.py]       (the session state),
    followed by the properties of these functions.

    Conventions.  Python strings are [string]s over the code points 0-255;
    [capitalize] changes the case of ASCII letters, which covers every
    literal of the sources, and [strip] removes every whitespace character
    of that range.  A Python [dict] is an association list in
    insertion order.  An [int] is a [Z].  A raised exception is the left
    summand of [result]. *)

From Stdlib Require Import ZArith List String Ascii Bool Lia QArith.
From Stdlib Require Import DecimalString DecimalPos DecimalZ.
Import ListNotations.

Set Warnings "-register-all".

Local Close Scope Q_scope.
Local Open Scope list_scope.
Local Open Scope string_scope.

(* ================================================================== *)
(** ** Python values and built-ins used by the sources *)
(* ================================================================== *)

Module Py.

(** Exceptions the modelled code can raise.  [DoesNotExist] is pynamodb's;
    [IllTyped] does not exist in Python: it marks a JSON value whose shape
    contradicts a dataclass annotation ([description: str], [enum: list]),
    which Python would store unchecked and which lies outside this typed
    model. *)
Inductive exn : Type :=
| KeyError | TypeError | ValueError | AttributeError
| JSONDecodeError | DoesNotExist | IllTyped.

Definition result (A : Type) : Type := (exn + A)%type.

Definition ret {A} (a : A) : result A := inr a.
Definition raise {A} (e : exn) : result A := inl e.
Definition bind {A B} (m : result A) (k : A -> result B) : result B :=
  match m with
  | inl e => inl e
  | inr a => k a
  end.

(** JSON-like Python values: [None], [bool], [int], [float] (by its exact
    rational value), [str], [list], [dict]. *)
Inductive json : Type :=
| JNull
| JBool (b : bool)
| JInt (z : Z)
| JFloat (q : Q)
| JStr (s : string)
| JArr (l : list json)
| JObj (d : list (string * json)).

(** *** dict *)

Definition dict (V : Type) : Type := list (string * V).

Fixpoint dict_get {V} (k : string) (d : dict V) : option V :=
  match d with
  | [] => None
  | (k', v) :: d' => if String.eqb k k' then Some v else dict_get k d'
  end.

(** [d[k] = v]: an existing key keeps its position, a new key goes last. *)
Fixpoint dict_set {V} (k : string) (v : V) (d : dict V) : dict V :=
  match d with
  | [] => [(k, v)]
  | (k', v') :: d' =>
      if String.eqb k k' then (k', v) :: d' else (k', v') :: dict_set k v d'
  end.

Definition dict_mem {V} (k : string) (d : dict V) : bool :=
  match dict_get k d with Some _ => true | None => false end.

Definition dict_remove {V} (k : string) (d : dict V) : dict V :=
  filter (fun kv => negb (String.eqb k (fst kv))) d.

(** [del d[k]] *)
Definition dict_del {V} (k : string) (d : dict V) : result (dict V) :=
  if dict_mem k d then ret (dict_remove k d) else raise KeyError.

Definition keys {V} (d : dict V) : list string := map fst d.
Definition values {V} (d : dict V) : list V := map snd d.

(** A Python dict never holds a key twice. *)
Definition wf_dict {V} (d : dict V) : Prop := NoDup (keys d).

(** *** str *)

Definition is_lower (c : ascii) : bool :=
  let n := nat_of_ascii c in (97 <=? n)%nat && (n <=? 122)%nat.
Definition is_upper (c : ascii) : bool :=
  let n := nat_of_ascii c in (65 <=? n)%nat && (n <=? 90)%nat.

Definition upper_char (c : ascii) : ascii :=
  if is_lower c then ascii_of_nat (nat_of_ascii c - 32) else c.
Definition lower_char (c : ascii) : ascii :=
  if is_upper c then ascii_of_nat (nat_of_ascii c + 32) else c.

Fixpoint lower (s : string) : string :=
  match s with
  | EmptyString => EmptyString
  | String c s' => String (lower_char c) (lower s')
  end.

(** [s.capitalize()] *)
Definition capitalize (s : string) : string :=
  match s with
  | EmptyString => EmptyString
  | String c s' => String (upper_char c) (lower s')
  end.

(** [s.split(sep)] for a one-character separator: one piece more than
    there are separators, empty pieces kept. *)
Fixpoint split (sep : ascii) (s : string) : list string :=
  match s with
  | EmptyString => [EmptyString]
  | String c s' =>
      if Ascii.eqb c sep then EmptyString :: split sep s'
      else match split sep s' with
           | w :: ws => String c w :: ws
           | [] => [String c EmptyString]
           end
  end.

(** [s.count(c)] for a one-character [c]. *)
Fixpoint count (c : ascii) (s : string) : nat :=
  match s with
  | EmptyString => 0
  | String c' s' => if Ascii.eqb c' c then S (count c s') else count c s'
  end.

(** [sep.join(l)] *)
Fixpoint join (sep : string) (l : list string) : string :=
  match l with
  | [] => EmptyString
  | [w] => w
  | w :: ws => w ++ sep ++ join sep ws
  end.

(** Characters removed by [str.strip()] among the code points 0-255: tab,
    line feed, vertical tab, form feed, carriage return (0x09-0x0d), the
    four separators 0x1c-0x1f, space (0x20), next line (0x85) and no-break
    space (0xa0). *)
Definition is_space (c : ascii) : bool :=
  let n := nat_of_ascii c in
  ((9 <=? n)%nat && (n <=? 13)%nat) || ((28 <=? n)%nat && (n <=? 32)%nat)
  || (n =? 133)%nat || (n =? 160)%nat.

Fixpoint lstrip (s : string) : string :=
  match s with
  | EmptyString => EmptyString
  | String c s' => if is_space c then lstrip s' else s
  end.

Fixpoint rstrip (s : string) : string :=
  match s with
  | EmptyString => EmptyString
  | String c s' =>
      match rstrip s' with
      | EmptyString => if is_space c then EmptyString else String c EmptyString
      | r => String c r
      end
  end.

(** [s.strip()] *)
Definition strip (s : string) : string := rstrip (lstrip s).

(** [s.isspace()] on every character (true of the empty string here), and
    whether the first, the last character is whitespace. *)
Fixpoint all_space (s : string) : bool :=
  match s with
  | EmptyString => true
  | String c s' => is_space c && all_space s'
  end.

Definition starts_with_space (s : string) : bool :=
  match s with
  | EmptyString => false
  | String c _ => is_space c
  end.

Fixpoint ends_with_space (s : string) : bool :=
  match s with
  | EmptyString => false
  | String c EmptyString => is_space c
  | String _ s' => ends_with_space s'
  end.

(** [str(n)] for an [int], as in an f-string. *)
Definition str_of_int (n : Z) : string := NilZero.string_of_int (Z.to_int n).

(** Truthiness of a [str] and of a [list]. *)
Definition nonempty (s : string) : bool :=
  match s with EmptyString => false | _ => true end.
Definition nonempty_list {A} (l : list A) : bool :=
  match l with [] => false | _ => true end.

(** [x in l] for a list of strings. *)
Definition str_in (x : string) (l : list string) : bool :=
  existsb (String.eqb x) l.

(** [l.index(x)]: first position, [ValueError] when absent. *)
Fixpoint index (x : string) (l : list string) : result nat :=
  match l with
  | [] => raise ValueError
  | y :: l' => if String.eqb x y then ret 0%nat
               else bind (index x l') (fun i => ret (S i))
  end.

(** [sub in s] for two strings. *)
Fixpoint is_substring (sub s : string) : bool :=
  if String.prefix sub s then true
  else match s with
       | EmptyString => false
       | String _ s' => is_substring sub s'
       end.

(** *** operations on JSON values *)

(** [j.get(k)] and [j.get(k, default)]: only a dict has [get]. *)
Definition get_default (j : json) (k : string) (default : json) : result json :=
  match j with
  | JObj d => ret (match dict_get k d with Some v => v | None => default end)
  | _ => raise AttributeError
  end.
Definition get (j : json) (k : string) : result json := get_default j k JNull.

(** [j[k]] with a string key. *)
Definition getitem (j : json) (k : string) : result json :=
  match j with
  | JObj d => match dict_get k d with Some v => ret v | None => raise KeyError end
  | _ => raise TypeError
  end.

(** [j.items()] *)
Definition items (j : json) : result (dict json) :=
  match j with
  | JObj d => ret d
  | _ => raise AttributeError
  end.

(** [name in j] for a string [name]: membership in a list, key of a dict,
    substring of a string; the other values are not iterable. *)
Definition contains (j : json) (name : string) : result bool :=
  match j with
  | JArr l => ret (existsb (fun x => match x with
                                     | JStr s => String.eqb s name
                                     | _ => false
                                     end) l)
  | JObj d => ret (dict_mem name d)
  | JStr s => ret (is_substring name s)
  | _ => raise TypeError
  end.

End Py.

Import Py.

Declare Scope py_scope.
Delimit Scope py_scope with py.
Notation "x <- m ;; k" := (bind m (fun x => k))
  (at level 61, m at next level, right associativity) : py_scope.
Local Open Scope py_scope.

(* ================================================================== *)
(** ** components/messages.py *)
(* ================================================================== *)

Module Messages.

(** The concrete message classes, in the order of their definition. *)
Inductive MessageClass : Type :=
| UserMessage | AssistantMessage
| TextInput | Selectbox | Slider | Checkbox
| DateInput | TimeInput | NumberInput | TextArea
| LineChart | BarChart | Image | Table | Markdown.

(** [cls.__name__].  [TextInput] is also decorated with [register_tool],
    which is defined outside these sources and is taken to hand the class
    back unchanged. *)
Definition class_name (cls : MessageClass) : string :=
  match cls with
  | UserMessage => "UserMessage"
  | AssistantMessage => "AssistantMessage"
  | TextInput => "TextInput"
  | Selectbox => "Selectbox"
  | Slider => "Slider"
  | Checkbox => "Checkbox"
  | DateInput => "DateInput"
  | TimeInput => "TimeInput"
  | NumberInput => "NumberInput"
  | TextArea => "TextArea"
  | LineChart => "LineChart"
  | BarChart => "BarChart"
  | Image => "Image"
  | Table => "Table"
  | Markdown => "Markdown"
  end.

(** The abstract class a concrete class derives from. *)
Inductive BaseClass : Type := BaseMessage | BaseInputWidget | BaseOutputWidget.

Definition base_class (cls : MessageClass) : BaseClass :=
  match cls with
  | UserMessage | AssistantMessage => BaseMessage
  | TextInput | Selectbox | Slider | Checkbox
  | DateInput | TimeInput | NumberInput | TextArea => BaseInputWidget
  | LineChart | BarChart | Image | Table | Markdown => BaseOutputWidget
  end.

(** Class-level default of [block_chat_input]. *)
Definition default_block_chat_input (cls : MessageClass) : bool :=
  match cls with
  | TextInput | TextArea => true
  | _ => false
  end.

(** [register_message]: the decorator stores the class under its name in the
    registry (the module-level dict, threaded explicitly here). *)
Definition register_message (cls : MessageClass) (registry : dict MessageClass)
  : dict MessageClass :=
  dict_set (class_name cls) cls registry.

Definition registered_classes : list MessageClass :=
  [ UserMessage; AssistantMessage;
    TextInput; Selectbox; Slider; Checkbox;
    DateInput; TimeInput; NumberInput; TextArea;
    LineChart; BarChart; Image; Table; Markdown ].

(** [message_registry] once the module is loaded: every decorated class
    registered, in definition order, starting from the empty dict. *)
Definition message_registry : dict MessageClass :=
  fold_left (fun registry cls => register_message cls registry)
            registered_classes [].

(** Instances.  A widget inherits [content] with its default [None]. *)
Inductive Message : Type :=
| TextMessage (cls : MessageClass) (content : option string)
| InputWidget (cls : MessageClass) (widget_config : json) (key : string)
              (value : json) (disabled : bool) (block_chat_input : bool)
| OutputWidget (cls : MessageClass) (widget_data : json).

(** Modelled from the spec: the constructor of the [Tool] base class
    ([ai_stream.components.tools]) is not among the sources.  Following the
    calls in [assistant.py] and the spec (a text message is built from its
    text, an output widget "with its data", an input widget "with (config,
    key)"), positional arguments fill the fields a class declares; any other
    argument list is a [TypeError]. *)
Definition instantiate (cls : MessageClass) (args : list json) : result Message :=
  match base_class cls, args with
  | BaseMessage, [JStr text] => ret (TextMessage cls (Some text))
  | BaseInputWidget, [config; JStr k] =>
      ret (InputWidget cls config k JNull false (default_block_chat_input cls))
  | BaseOutputWidget, [data] => ret (OutputWidget cls data)
  | _, _ => raise TypeError
  end.

End Messages.

(* ================================================================== *)
(** ** components/assistant.py *)
(* ================================================================== *)

Module Assistant.
Import Messages.

(** What the pseudo-random sources deliver during one call: the three
    [random.choice] draws and the two [np.random.randn(20, 3).tolist()]
    samples. *)
Record Draws : Type := {
  response_type_draw : nat;
  message_draw : nat;
  widget_draw : nat;
  line_chart_data : json;
  bar_chart_data : json
}.

(** [random.choice] on the non-empty sequence [x :: xs]: the element at the
    drawn position. *)
Definition random_choice {A} (draw : nat) (x : A) (xs : list A) : A :=
  nth (draw mod S (List.length xs)) (x :: xs) x.

Record OutputDescriptor : Type := {
  widget_type : string;
  widget_data : json
}.

Record InputDescriptor : Type := {
  input_widget_type : string;
  widget_config : json
}.

Definition possible_messages (user_message : string) : list string :=
  [ "Thanks for sharing: " ++ user_message;
    "Could you elaborate on that?";
    "Interesting point!";
    "I appreciate your input.";
    "Let's discuss further.";
    "That's a great question.";
    "I see. Tell me more.";
    "You said: " ++ user_message ++ ". Let's explore that.";
    "What makes you say that?";
    "How does that make you feel?" ].

Definition newline : string := String (ascii_of_nat 10) EmptyString.

Definition possible_output_widgets (rnd : Draws) : list OutputDescriptor :=
  [ {| widget_type := "line_chart"; widget_data := line_chart_data rnd |};
    {| widget_type := "bar_chart"; widget_data := bar_chart_data rnd |};
    {| widget_type := "image";
       widget_data := JObj [ ("url", JStr "https://via.placeholder.com/150");
                             ("caption", JStr "A placeholder image") ] |};
    {| widget_type := "table";
       widget_data :=
         JObj [ ("Column 1", JArr [JStr "A"; JStr "B"; JStr "C"]);
                ("Column 2", JArr [JInt 1; JInt 2; JInt 3]);
                ("Column 3", JArr [JFloat (9 # 2)%Q; JFloat (11 # 2)%Q;
                                   JFloat (13 # 2)%Q]) ] |};
    {| widget_type := "markdown";
       widget_data :=
         JObj [ ("content",
                 JStr ("### This is a Markdown header" ++ newline ++ newline
                       ++ "Here is some **bold** "
                       ++ "text and *italic* text.")) ] |} ].

Definition possible_widgets : list InputDescriptor :=
  [ {| input_widget_type := "text_input";
       widget_config :=
         JObj [ ("label", JStr "Assistant asks: Please provide your name:") ] |};
    {| input_widget_type := "selectbox";
       widget_config :=
         JObj [ ("label", JStr "Assistant asks: Choose your favorite color:");
                ("options", JArr [ JStr "Red"; JStr "Green"; JStr "Blue";
                                   JStr "Yellow"; JStr "Purple";
                                   JStr "Orange" ]) ] |};
    {| input_widget_type := "slider";
       widget_config :=
         JObj [ ("label",
                 JStr "Assistant asks: Rate your experience from 1 to 10:");
                ("min_value", JInt 1); ("max_value", JInt 10);
                ("default", JInt 5) ] |};
    {| input_widget_type := "checkbox";
       widget_config :=
         JObj [ ("label", JStr "Assistant asks: Do you agree with the terms?") ] |};
    {| input_widget_type := "date_input";
       widget_config :=
         JObj [ ("label", JStr "Assistant asks: Select your birth date:") ] |};
    {| input_widget_type := "time_input";
       widget_config :=
         JObj [ ("label",
                 JStr "Assistant asks: What time works best for you?") ] |};
    {| input_widget_type := "number_input";
       widget_config :=
         JObj [ ("label", JStr "Assistant asks: Enter a number:");
                ("min_value", JInt 0); ("max_value", JInt 100);
                ("default", JInt 50) ] |};
    {| input_widget_type := "text_area";
       widget_config :=
         JObj [ ("label",
                 JStr "Assistant asks: Please describe your issue in detail:") ] |} ].

(** Lines 72 and 141:
    ["".join(word.capitalize() for word in widget_type.split("_")) + "Message"] *)
Definition derived_class_name (widget_type : string) : string :=
  join "" (map capitalize (split "_" widget_type)) ++ "Message".

Definition unknown_widget_text : string :=
  "Sorry, I encountered an unknown widget type.".

(** The draws of one call, made explicit. *)
Definition response_type (rnd : Draws) : string :=
  random_choice (response_type_draw rnd) "input_widget" ["output"; "output_widget"].

Definition selected_output_widget (rnd : Draws) : OutputDescriptor :=
  match possible_output_widgets rnd with
  | w :: ws => random_choice (widget_draw rnd) w ws
  | [] => {| widget_type := ""; widget_data := JNull |}
  end.

Definition selected_input_widget (rnd : Draws) : InputDescriptor :=
  match possible_widgets with
  | w :: ws => random_choice (widget_draw rnd) w ws
  | [] => {| input_widget_type := ""; widget_config := JNull |}
  end.

Definition selected_message (rnd : Draws) (user_message : string) : string :=
  match possible_messages user_message with
  | m :: ms => random_choice (message_draw rnd) m ms
  | [] => ""
  end.

(** [generate_random_response]; the registry it reads is an argument. *)
Definition generate_random_response
  (message_registry : dict MessageClass) (rnd : Draws)
  (user_message : string) (widget_counter : Z) : result (Message * Z) :=
  if String.eqb (response_type rnd) "output" then
    let assistant_message := selected_message rnd user_message in
    m <- instantiate AssistantMessage [JStr assistant_message] ;;
    ret (m, widget_counter)
  else if String.eqb (response_type rnd) "output_widget" then
    let selected_widget := selected_output_widget rnd in
    let class_name := derived_class_name (widget_type selected_widget) in
    match dict_get class_name message_registry with
    | Some message_class =>
        m <- instantiate message_class [widget_data selected_widget] ;;
        ret (m, widget_counter)
    | None =>
        m <- instantiate AssistantMessage [JStr unknown_widget_text] ;;
        ret (m, widget_counter)
    end
  else
    let widget_counter := (widget_counter + 1)%Z in
    let widget_key := "widget_" ++ str_of_int widget_counter in
    let selected_widget := selected_input_widget rnd in
    let class_name := derived_class_name (input_widget_type selected_widget) in
    match dict_get class_name message_registry with
    | Some message_class =>
        m <- instantiate message_class
               [widget_config selected_widget; JStr widget_key] ;;
        ret (m, widget_counter)
    | None =>
        m <- instantiate AssistantMessage [JStr unknown_widget_text] ;;
        ret (m, widget_counter)
    end.

(** The widget types of the two descriptor pools. *)
Definition output_widget_types : list string :=
  ["line_chart"; "bar_chart"; "image"; "table"; "markdown"].

Definition input_widget_types : list string :=
  ["text_input"; "selectbox"; "slider"; "checkbox"; "date_input";
   "time_input"; "number_input"; "text_area"].

(** The fallback message of lines 80 and 149. *)
Definition unknown_widget_message : Message :=
  TextMessage AssistantMessage (Some "Sorry, I encountered an unknown widget type.").

(** Sample draws: the output-widget category with the table descriptor, the
    input-widget category with the number-input descriptor. *)
Definition output_widget_draws : Draws :=
  {| response_type_draw := 2; message_draw := 0; widget_draw := 3;
     line_chart_data := JArr []; bar_chart_data := JArr [] |}.

Definition input_widget_draws : Draws :=
  {| response_type_draw := 0; message_draw := 0; widget_draw := 6;
     line_chart_data := JArr []; bar_chart_data := JArr [] |}.

End Assistant.

(* ================================================================== *)
(** ** utils/app_state.py and configurations/function_tools.py *)
(* ================================================================== *)

Module FunctionTools.
Import Messages.

Definition PARAM_TYPES : list string :=
  ["string"; "number"; "integer"; "boolean"; "array"; "object"].

(** The dataclass [FunctionParameter], typed after its annotations. *)
Record FunctionParameter : Type := {
  name : string;
  description : string;
  type : string;
  required : bool;
  enum : list json;
  items_type : string;
  type_index : nat;
  items_type_index : nat
}.

(** [FunctionParameter.__post_init__] *)
Definition __post_init__ (self : FunctionParameter) : result FunctionParameter :=
  ti <- index (type self) PARAM_TYPES ;;
  ii <- index (items_type self) PARAM_TYPES ;;
  ret {| name := name self;
         description := description self;
         type := type self;
         required := required self;
         enum := enum self;
         items_type := items_type self;
         type_index := ti;
         items_type_index := ii |}.

(** [FunctionParameter(name=..., description=..., type=..., required=...,
    enum=..., items_type=...)]: the generated [__init__] stores the fields
    (the two indexes at their default 0) and runs [__post_init__]. *)
Definition new_FunctionParameter
  (name : string) (description : string) (type : string) (required : bool)
  (enum : list json) (items_type : string) : result FunctionParameter :=
  __post_init__ {| name := name; description := description; type := type;
                   required := required; enum := enum;
                   items_type := items_type;
                   type_index := 0; items_type_index := 0 |}.

(** What [__post_init__] establishes: each index points at its type in
    [PARAM_TYPES]. *)
Definition indexes_agree (p : FunctionParameter) : Prop :=
  nth_error PARAM_TYPES (type_index p) = Some (type p)
  /\ nth_error PARAM_TYPES (items_type_index p) = Some (items_type p).

(** A function as the editor holds it: a Python dict with the keys ["name"],
    ["schema_name"], ["description"], ["parameters"] and ["id"], each of
    which may be missing ([None] here; [{}] is [empty_function]).  ["name"]
    and ["description"] are only ever passed through and stay JSON values. *)
Record FunctionDict : Type := {
  fn_name : option json;
  fn_schema_name : option string;
  fn_description : option json;
  fn_parameters : option (dict FunctionParameter);
  fn_id : option string
}.

Definition empty_function : FunctionDict :=
  {| fn_name := None; fn_schema_name := None; fn_description := None;
     fn_parameters := None; fn_id := None |}.

(** [d[key]] on such a dict. *)
Definition key {A} (field : option A) : result A :=
  match field with
  | Some v => ret v
  | None => raise KeyError
  end.

Definition set_parameters (f : FunctionDict) (ps : dict FunctionParameter)
  : FunctionDict :=
  {| fn_name := fn_name f; fn_schema_name := fn_schema_name f;
     fn_description := fn_description f; fn_parameters := Some ps;
     fn_id := fn_id f |}.

Definition set_id (f : FunctionDict) (function_id : string) : FunctionDict :=
  {| fn_name := fn_name f; fn_schema_name := fn_schema_name f;
     fn_description := fn_description f; fn_parameters := fn_parameters f;
     fn_id := Some function_id |}.

(** [new_function] *)
Definition new_function : FunctionDict :=
  {| fn_name := Some (JStr "");
     fn_schema_name := Some "NewFunction";
     fn_description := Some (JStr "");
     fn_parameters := Some [];
     fn_id := None |}.

(** [AppState] *)
Record AppState : Type := {
  chat_history : list Message;
  openai_thread_id : string;
  prompts : dict string;
  functions : dict string;
  assistants : dict string;
  recent_tool_output : dict json;
  current_function : FunctionDict
}.

(** [AppState.__init__] *)
Definition init_app_state : AppState :=
  {| chat_history := []; openai_thread_id := ""; prompts := [];
     functions := []; assistants := []; recent_tool_output := [];
     current_function := empty_function |}.

Definition set_current_function (app_state : AppState) (f : FunctionDict)
  : AppState :=
  {| chat_history := chat_history app_state;
     openai_thread_id := openai_thread_id app_state;
     prompts := prompts app_state;
     functions := functions app_state;
     assistants := assistants app_state;
     recent_tool_output := recent_tool_output app_state;
     current_function := f |}.

(** A row of [FunctionsTable]. *)
Record Item : Type := {
  item_name : string;
  used_by : list string;
  item_value : json
}.

(** What Streamlit returns for the controls of one parameter. *)
Record ParameterWidgets : Type := {
  name_input : string;
  description_input : string;
  type_select : string;
  required_checkbox : bool;
  enum_input : string;
  items_type_select : string
}.

(** What Streamlit returns for the controls of [get_function]: the
    "Expert Mode" checkbox and the text held by the code editor. *)
Record EditorWidgets : Type := {
  expert_mode : bool;
  code_text : string
}.

(** [JStr s -> s], anything else raises [e]. *)
Definition as_str (e : exn) (j : json) : result string :=
  match j with
  | JStr s => ret s
  | _ => raise e
  end.

Definition as_list (e : exn) (j : json) : result (list json) :=
  match j with
  | JArr l => ret l
  | _ => raise e
  end.

(** [sep.join(l)] on a list of JSON values: every element must be a [str]. *)
Fixpoint join_json (sep : string) (l : list json) : result string :=
  match l with
  | [] => ret ""
  | [x] => as_str TypeError x
  | x :: rest =>
      w <- as_str TypeError x ;;
      r <- join_json sep rest ;;
      ret (w ++ sep ++ r)
  end.

(** Line 180: [[e.strip() for e in enum_input.split(",")] if enum_input else []] *)
Definition parse_enum (enum_input : string) : list string :=
  if nonempty enum_input then map strip (split "," enum_input) else [].

(** Lines 116-121: the property emitted for one parameter. *)
Definition build_property (param : FunctionParameter) : json :=
  let prop := [ ("type", JStr (type param));
                ("description", JStr (description param)) ] in
  let prop :=
    if str_in (type param) ["string"; "number"; "integer"] then
      if nonempty_list (enum param)
      then dict_set "enum" (JArr (enum param)) prop
      else prop
    else prop in
  let prop :=
    if String.eqb (type param) "array"
    then dict_set "items" (JObj [("type", JStr (items_type param))]) prop
    else prop in
  JObj prop.

(** What the spec asks of the property emitted for a parameter: it holds
    the type and the description; it holds the enum list exactly when the
    type is string, number or integer and the list is not empty; it holds
    [items] with the item type exactly when the type is array; and it holds
    nothing else. *)
Definition property_describes (prop : json) (p : FunctionParameter) : Prop :=
  exists d,
    prop = JObj d
    /\ dict_get "type" d = Some (JStr (type p))
    /\ dict_get "description" d = Some (JStr (description p))
    /\ (In (type p) ["string"; "number"; "integer"] /\ enum p <> [] ->
        dict_get "enum" d = Some (JArr (enum p)))
    /\ (~ (In (type p) ["string"; "number"; "integer"] /\ enum p <> []) ->
        dict_get "enum" d = None)
    /\ (type p = "array" ->
        dict_get "items" d = Some (JObj [("type", JStr (items_type p))]))
    /\ (type p <> "array" -> dict_get "items" d = None)
    /\ incl (keys d) ["type"; "description"; "enum"; "items"].

(** The six fields the round trip is asked to preserve. *)
Definition same_fields (p q : FunctionParameter) : Prop :=
  name q = name p /\ description q = description p /\ type q = type p
  /\ required q = required p /\ enum q = enum p
  /\ items_type q = items_type p.

(** What the round trip does preserve: the enum list survives for the types
    that emit it, the items type for arrays; elsewhere the defaults of the
    conversion ([[]] and ["string"]) come back. *)
Definition round_trip_fields (p q : FunctionParameter) : Prop :=
  name q = name p /\ description q = description p /\ type q = type p
  /\ required q = required p
  /\ enum q = (if str_in (type p) ["string"; "number"; "integer"]
               then enum p else [])
  /\ items_type q = (if String.eqb (type p) "array"
                     then items_type p else "string")
  /\ indexes_agree q.

(** The parameters [build_json_schema] does not skip. *)
Definition named (parameters : dict FunctionParameter) : list FunctionParameter :=
  filter (fun p => nonempty (name p)) (values parameters).

(** Lines 114-122: one pass of the loop filling [properties]. *)
Definition add_property (properties : dict json) (param : FunctionParameter)
  : dict json :=
  if negb (nonempty (name param)) then properties
  else dict_set (name param) (build_property param) properties.

(** Lines 112-122: the loop over [parameters.values()]. *)
Definition build_properties (parameters : dict FunctionParameter) : dict json :=
  fold_left add_property (values parameters) [].

(** Lines 109-111 *)
Definition required_params (parameters : dict FunctionParameter) : list string :=
  map name
      (filter (fun param => required param && nonempty (name param))
              (values parameters)).

(** [remove_parameter]: [del selected_function["parameters"][param_id]] *)
Definition remove_parameter (selected_function : FunctionDict)
  (param_id : string) : result FunctionDict :=
  parameters <- key (fn_parameters selected_function) ;;
  parameters <- dict_del param_id parameters ;;
  ret (set_parameters selected_function parameters).

(** [parameter_input]; [ui] holds what the controls return.  The default
    shown in the enum box, [", ".join(param.enum)], is evaluated (and may
    raise) before the box is drawn. *)
Definition parameter_input (ui : ParameterWidgets)
  (param : FunctionParameter) (param_id : string) : result FunctionParameter :=
  let new_name := name_input ui in
  let new_description := description_input ui in
  let new_type := type_select ui in
  let new_required := required_checkbox ui in
  new_enum <-
    (if str_in new_type ["string"; "number"; "integer"] then
       _ <- join_json ", " (enum param) ;;
       ret (map JStr (parse_enum (enum_input ui)))
     else ret []) ;;
  let new_items_type :=
    if String.eqb new_type "array" then items_type_select ui else "string" in
  new_FunctionParameter new_name new_description new_type new_required
                        new_enum new_items_type.

Section Collaborators.

(** Collaborators defined outside these sources: [create_id]
    ([ai_stream.utils]), whose successive calls return [create_id 0],
    [create_id 1], ... (the position in that sequence is threaded as
    [next_id]); [json.dumps(_, indent=2)] and [json.loads]. *)
Variable create_id : nat -> string.
Variable json_dumps : json -> string.
Variable json_loads : string -> result json.

(** Lines 65-74: the body of the conversion loop for one property.  The
    values of [fields] are read in the order of the dict display; then
    the [FunctionParameter] built from them runs [__post_init__], whose two [index]
    calls raise [ValueError] for a type or an items type outside
    [PARAM_TYPES], a string or not.  Both checks are made before the typed
    record is filled, so that what Python rejects is rejected with Python's
    exception; a description that is not a [str] or an enum that is not a
    [list] is where the typed model stops ([IllTyped]). *)
Definition convert_param (required : json) (param_name : string) (param : json)
  : result FunctionParameter :=
  description <- getitem param "description" ;;
  type <- getitem param "type" ;;
  is_required <- contains required param_name ;;
  enum <- get_default param "enum" (JArr []) ;;
  items <- get_default param "items" (JObj []) ;;
  items_type <- get_default items "type" (JStr "string") ;;
  type <- as_str ValueError type ;;
  _ <- index type PARAM_TYPES ;;
  items_type <- as_str ValueError items_type ;;
  _ <- index items_type PARAM_TYPES ;;
  description <- as_str IllTyped description ;;
  enum <- as_list IllTyped enum ;;
  new_FunctionParameter param_name description type is_required enum items_type.

(** Lines 64-74: the loop over [parameters["properties"].items()]. *)
Fixpoint convert_params (required : json) (properties : dict json)
  (converted_params : dict FunctionParameter) (next_id : nat)
  : result (dict FunctionParameter * nat) :=
  match properties with
  | [] => ret (converted_params, next_id)
  | (param_name, param) :: rest =>
      let param_id := create_id next_id in
      p <- convert_param required param_name param ;;
      convert_params required rest (dict_set param_id p converted_params)
                     (S next_id)
  end.

(** [convert_openai_function_to_aistream_dict]; [schema] is a [str] ([inl])
    or an already parsed value ([inr]). *)
Definition convert_openai_function_to_aistream_dict
  (schema_name : string) (schema : string + json) (next_id : nat)
  : result (FunctionDict * nat) :=
  schema_dict <- match schema with
                 | inl text => json_loads text
                 | inr d => ret d
                 end ;;
  function_name <- get schema_dict "name" ;;
  function_description <- get schema_dict "description" ;;
  parameters <- get schema_dict "parameters" ;;
  required <- get_default parameters "required" (JArr []) ;;
  properties <- getitem parameters "properties" ;;
  properties <- items properties ;;
  converted <- convert_params required properties [] next_id ;;
  ret ({| fn_name := Some function_name;
          fn_schema_name := Some schema_name;
          fn_description := Some function_description;
          fn_parameters := Some (fst converted);
          fn_id := None |}, snd converted).

(** Lines 109-132: the schema object. *)
Definition build_schema (function_name function_description : json)
  (parameters : dict FunctionParameter) : json :=
  let required_params := required_params parameters in
  let properties := build_properties parameters in
  let parameters := [ ("type", JStr "object");
                      ("properties", JObj properties) ] in
  let parameters :=
    if nonempty_list required_params
    then dict_set "required" (JArr (map JStr required_params)) parameters
    else parameters in
  JObj [ ("name", function_name);
         ("description", function_description);
         ("parameters", JObj parameters) ].

(** [build_json_schema] *)
Definition build_json_schema (function_name function_description : json)
  (parameters : dict FunctionParameter) : json * string :=
  let schema := build_schema function_name function_description parameters in
  (schema, json_dumps schema).

(** [add_function] *)
Definition add_function (app_state : AppState) (next_id : nat) : AppState * nat :=
  let new_id := create_id next_id in
  ({| chat_history := chat_history app_state;
      openai_thread_id := openai_thread_id app_state;
      prompts := prompts app_state;
      functions := fold_left (fun d kv => dict_set (fst kv) (snd kv) d)
                             ((new_id, "NewFunction") :: functions app_state) [];
      assistants := assistants app_state;
      recent_tool_output := recent_tool_output app_state;
      current_function := current_function app_state |}, S next_id).

(** [add_parameter] *)
Definition add_parameter (selected_function : FunctionDict) (next_id : nat)
  : result (FunctionDict * nat) :=
  let new_id := create_id next_id in
  new_param <- new_FunctionParameter "" "" "string" true [] "string" ;;
  parameters <- key (fn_parameters selected_function) ;;
  ret (set_parameters selected_function (dict_set new_id new_param parameters),
       S next_id).

(** [FunctionsTable.get]: the row, or an exception ([DoesNotExist] when
    there is none). *)
Variable store : string -> result Item.

(** Lines 222-239 of [get_function]: what happens when the requested
    function is not the active one.  The "Used By" lines it writes to the
    page are not recorded. *)
Definition reload_function (app_state : AppState) (function_id : string)
  (next_id : nat) : result (AppState * nat) :=
  item <- match store function_id with
          | inl DoesNotExist => ret None
          | inl e => raise e
          | inr item => ret (Some item)
          end ;;
  loaded <- match item with
            | Some item =>
                convert_openai_function_to_aistream_dict
                  (item_name item) (inr (item_value item)) next_id
            | None => ret (new_function, next_id)
            end ;;
  ret (set_current_function app_state (set_id (fst loaded) function_id),
       snd loaded).

(** [app_state.current_function.get("id", "") != function_id] *)
Definition needs_reloading (app_state : AppState) (function_id : string) : bool :=
  negb (String.eqb (match fn_id (current_function app_state) with
                    | Some i => i
                    | None => ""
                    end) function_id).

(** Lines 241-258 of [get_function]: the returned function dict. *)
Definition selected_function (ui : EditorWidgets) (stored_function : FunctionDict)
  (next_id : nat) : result (FunctionDict * nat) :=
  if expert_mode ui then
    function_name <- key (fn_name stored_function) ;;
    function_description <- key (fn_description stored_function) ;;
    parameters <- key (fn_parameters stored_function) ;;
    let current_schema :=
      snd (build_json_schema function_name function_description parameters) in
    schema_name <- key (fn_schema_name stored_function) ;;
    convert_openai_function_to_aistream_dict
      schema_name
      (inl (if nonempty (code_text ui) then code_text ui else current_schema))
      next_id
  else ret (stored_function, next_id).

(** [get_function]: the session state after the call (kept also when the
    call raises) and what the call returns. *)
Definition get_function (ui : EditorWidgets) (app_state : AppState)
  (function_id : string) (next_id : nat)
  : AppState * result (FunctionDict * nat) :=
  match (if needs_reloading app_state function_id
         then reload_function app_state function_id next_id
         else ret (app_state, next_id)) with
  | inl e => (app_state, inl e)
  | inr (app_state, next_id) =>
      (app_state, selected_function ui (current_function app_state) next_id)
  end.

End Collaborators.

End FunctionTools.

(* ================================================================== *)
(** ** Sample data for the worked instances *)
(* ================================================================== *)

Module Samples.
Import FunctionTools.

(** An id source with pairwise distinct ids: ["p"], ["pi"], ["pii"], ... *)
Fixpoint ticks (n : nat) : string :=
  match n with
  | O => EmptyString
  | S k => String "i" (ticks k)
  end.

Definition sample_create_id (n : nat) : string := String "p" (ticks n).

(** A [json.loads] that rejects every text and a [json.dumps] that prints
    nothing: stand-ins for instances in which neither is called on a value
    that matters. *)
Definition reject_json_text (text : string) : result json := raise JSONDecodeError.
Definition blank_json_text (j : json) : string := "".

(** A table without rows. *)
Definition empty_store (function_id : string) : result Item := raise DoesNotExist.

(** A fresh session in which the function ["f0"] is active. *)
Definition sample_app_state : AppState :=
  set_current_function init_app_state (set_id new_function "f0").

Definition sample_editor : EditorWidgets :=
  {| expert_mode := false; code_text := "" |}.

Definition city_param : FunctionParameter :=
  {| name := "city"; description := "City name"; type := "string";
     required := true; enum := [JStr "Paris"; JStr "Rome"];
     items_type := "string"; type_index := 0; items_type_index := 0 |}.

Definition tags_param : FunctionParameter :=
  {| name := "tags"; description := "Labels"; type := "array";
     required := false; enum := []; items_type := "integer";
     type_index := 4; items_type_index := 2 |}.

Definition unnamed_param : FunctionParameter :=
  {| name := ""; description := ""; type := "string";
     required := true; enum := []; items_type := "string";
     type_index := 0; items_type_index := 0 |}.

Definition sample_parameters : dict FunctionParameter :=
  [ ("p1", city_param); ("p2", unnamed_param); ("p3", tags_param) ].

Definition sample_function : FunctionDict :=
  {| fn_name := Some (JStr "weather");
     fn_schema_name := Some "Weather";
     fn_description := Some (JStr "Look up the weather");
     fn_parameters := Some sample_parameters;
     fn_id := Some "f0" |}.

(** Parameters the round trip does not give back as they were. *)
Definition flag_param : FunctionParameter :=
  {| name := "flag"; description := "A switch"; type := "boolean";
     required := true; enum := [JStr "yes"; JStr "no"];
     items_type := "string"; type_index := 3; items_type_index := 0 |}.

Definition label_param : FunctionParameter :=
  {| name := "label"; description := "A label"; type := "string";
     required := true; enum := [];
     items_type := "number"; type_index := 0; items_type_index := 1 |}.

Definition first_city_param : FunctionParameter :=
  {| name := "city"; description := "Departure"; type := "string";
     required := false; enum := [];
     items_type := "string"; type_index := 0; items_type_index := 0 |}.

(** [schema -> parameters] applied to [parameters -> schema], on sample
    collaborators. *)
Definition round_trip (parameters : dict FunctionParameter)
  : result (FunctionDict * nat) :=
  convert_openai_function_to_aistream_dict
    sample_create_id reject_json_text "Sample"
    (inr (fst (build_json_schema blank_json_text (JStr "f") (JStr "d")
                                 parameters)))
    0.

Definition sample_widgets : ParameterWidgets :=
  {| name_input := "unit"; description_input := "Unit";
     type_select := "string"; required_checkbox := false;
     enum_input := "a, b ,c"; items_type_select := "string" |}.

(** A table with two rows: ["f7"] holds the schema of the sample
    parameters, ["f8"] a schema without ["parameters"]. *)
Definition weather_item : Item :=
  {| item_name := "Weather"; used_by := [];
     item_value := build_schema (JStr "weather") (JStr "Look up the weather")
                                sample_parameters |}.

Definition broken_item : Item :=
  {| item_name := "Broken"; used_by := ["asst_1"];
     item_value := JObj [("name", JStr "broken")] |}.

Definition sample_table : dict Item :=
  [("f7", weather_item); ("f8", broken_item)].

Definition sample_store (function_id : string) : result Item :=
  match dict_get function_id sample_table with
  | Some item => ret item
  | None => raise DoesNotExist
  end.

(** A session that lists the two rows and a function not saved yet. *)
Definition listing_app_state : AppState :=
  {| chat_history := []; openai_thread_id := ""; prompts := [];
     functions := [("f9", "NewFunction"); ("f7", "Weather"); ("f8", "Broken")];
     assistants := []; recent_tool_output := [];
     current_function := empty_function |}.

End Samples.

(* ================================================================== *)
(** ** The table of functions and the session wrapper *)
(* ================================================================== *)

Module Session.
Import FunctionTools.

(** [FunctionsTable] as its rows, by id.  [FunctionsTable.get] raises
    [DoesNotExist] for an id without a row. *)
Definition table_get (table : dict Item) (function_id : string) : result Item :=
  match dict_get function_id table with
  | Some item => ret item
  | None => raise DoesNotExist
  end.

Definition set_functions (app_state : AppState) (fs : dict string) : AppState :=
  {| chat_history := chat_history app_state;
     openai_thread_id := openai_thread_id app_state;
     prompts := prompts app_state;
     functions := fs;
     assistants := assistants app_state;
     recent_tool_output := recent_tool_output app_state;
     current_function := current_function app_state |}.

(** [remove_function]: the session state and the table after the call (as
    they stand also when the call raises) and what the call returns.  The
    row fetched under [function_id] is the one [item.delete()] deletes. *)
Definition remove_function (app_state : AppState) (table : dict Item)
  (function_id : string) : (AppState * dict Item) * result unit :=
  match dict_del function_id (functions app_state) with
  | inl e => ((app_state, table), inl e)
  | inr fs =>
      let app_state := set_functions app_state fs in
      match table_get table function_id with
      | inl e => ((app_state, table), inl e)
      | inr item => ((app_state, dict_remove function_id table), ret tt)
      end
  end.

(** A parameter as [parameter_input] leaves it: no enum list unless the type
    is string, number or integer, and the items type ["string"] unless the
    type is array. *)
Definition normalised (p : FunctionParameter) : Prop :=
  (str_in (type p) ["string"; "number"; "integer"] = false -> enum p = [])
  /\ (type p <> "array" -> items_type p = "string").

(** Lines 174-180 with the enum box left as it is drawn: the box returns the
    default it was given, [", ".join(param.enum)], and that text is parsed. *)
Definition untouched_enum (enum : list string) : list string :=
  parse_enum (join ", " enum).

(** No comma inside, no whitespace (in the sense of [str.strip()]) at either
    end. *)
Definition plain_entry (e : string) : Prop :=
  count "," e = 0
  /\ starts_with_space e = false /\ ends_with_space e = false.

End Session.

(* ================================================================== *)
(** ** Properties of the Python built-ins *)
(* ================================================================== *)

Module PyProps.

Lemma dict_get_set_eq {V} (k : string) (v : V) (d : dict V) :
  dict_get k (dict_set k v d) = Some v.
Proof.
  induction d as [|[k' v'] d IH]; simpl.
  - now rewrite String.eqb_refl.
  - destruct (String.eqb k k') eqn:E; simpl; rewrite E; auto.
Qed.

Lemma dict_get_set_neq {V} (k k' : string) (v : V) (d : dict V) :
  k <> k' -> dict_get k (dict_set k' v d) = dict_get k d.
Proof.
  intros Hne.
  induction d as [|[k0 v0] d IH]; simpl.
  - apply String.eqb_neq in Hne. now rewrite Hne.
  - destruct (String.eqb k' k0) eqn:E; simpl.
    + apply String.eqb_eq in E. subst k0.
      apply String.eqb_neq in Hne. now rewrite Hne.
    + now rewrite IH.
Qed.

Lemma dict_get_set {V} (k k' : string) (v : V) (d : dict V) :
  dict_get k (dict_set k' v d)
  = if String.eqb k k' then Some v else dict_get k d.
Proof.
  destruct (String.eqb k k') eqn:E.
  - apply String.eqb_eq in E. subst. apply dict_get_set_eq.
  - apply String.eqb_neq in E. now apply dict_get_set_neq.
Qed.

Lemma dict_get_None_keys {V} (k : string) (d : dict V) :
  dict_get k d = None <-> ~ In k (keys d).
Proof.
  induction d as [|[k' v'] d IH]; simpl.
  - intuition.
  - destruct (String.eqb k k') eqn:E.
    + apply String.eqb_eq in E. subst. split; [discriminate|]. intuition.
    + apply String.eqb_neq in E. rewrite IH. intuition congruence.
Qed.

Lemma dict_get_In {V} (k : string) (v : V) (d : dict V) :
  dict_get k d = Some v -> In (k, v) d.
Proof.
  induction d as [|[k' v'] d IH]; simpl; [discriminate|].
  destruct (String.eqb k k') eqn:E.
  - apply String.eqb_eq in E. intros [= ->]. subst. now left.
  - intros H. right. now apply IH.
Qed.

(** Setting a key the dict does not hold appends the entry. *)
Lemma dict_set_fresh {V} (k : string) (v : V) (d : dict V) :
  dict_get k d = None -> dict_set k v d = (d ++ [(k, v)])%list.
Proof.
  induction d as [|[k' v'] d IH]; simpl; [reflexivity|].
  destruct (String.eqb k k'); [discriminate|].
  intros H. now rewrite IH.
Qed.

Lemma dict_set_Forall {V} (P : V -> Prop) (k : string) (v : V) (d : dict V) :
  Forall P (values d) -> P v -> Forall P (values (dict_set k v d)).
Proof.
  intros Hd Hv.
  induction d as [|[k' v'] d IH]; simpl.
  - constructor; [assumption|constructor].
  - inversion Hd; subst.
    destruct (String.eqb k k'); simpl; constructor; auto.
Qed.

Lemma dict_get_remove_eq {V} (k : string) (d : dict V) :
  dict_get k (dict_remove k d) = None.
Proof.
  induction d as [|[k' v'] d IH]; simpl; [reflexivity|].
  destruct (String.eqb k k') eqn:E; simpl; [assumption|].
  now rewrite E.
Qed.

Lemma dict_get_remove_neq {V} (k k' : string) (d : dict V) :
  k <> k' -> dict_get k (dict_remove k' d) = dict_get k d.
Proof.
  intros Hne.
  induction d as [|[k0 v0] d IH]; simpl; [reflexivity|].
  destruct (String.eqb k' k0) eqn:E; simpl.
  - apply String.eqb_eq in E. subst k0.
    apply String.eqb_neq in Hne. now rewrite Hne.
  - now rewrite IH.
Qed.

Lemma dict_remove_absent {V} (k : string) (d : dict V) :
  ~ In k (keys d) -> dict_remove k d = d.
Proof.
  induction d as [|[k' v'] d IH]; simpl; [reflexivity|].
  intros H.
  destruct (String.eqb k k') eqn:E; simpl.
  - apply String.eqb_eq in E. subst. intuition.
  - rewrite IH; intuition.
Qed.

(** In a dict (no key twice), deleting a key takes out its one entry and
    keeps the others in place. *)
Lemma dict_remove_split {V} (k : string) (v : V) (d : dict V) :
  wf_dict d -> dict_get k d = Some v ->
  exists before after,
    d = (before ++ (k, v) :: after)%list
    /\ dict_remove k d = (before ++ after)%list.
Proof.
  unfold wf_dict.
  induction d as [|[k' v'] d IH]; simpl; [discriminate|].
  intros Hnd Hget. inversion Hnd as [|? ? Hnotin Hnd']; subst.
  destruct (String.eqb k k') eqn:E; simpl.
  - apply String.eqb_eq in E. subst k'. injection Hget as ->.
    exists [], d. split; [reflexivity|].
    simpl. now apply dict_remove_absent.
  - destruct (IH Hnd' Hget) as (before & after & Hd & Hr).
    exists ((k', v') :: before), after. simpl. split; congruence.
Qed.

Lemma split_length (sep : ascii) (s : string) :
  List.length (split sep s) = S (count sep s).
Proof.
  induction s as [|c s IH]; simpl; [reflexivity|].
  destruct (Ascii.eqb c sep); simpl; [now rewrite IH|].
  destruct (split sep s); simpl in *; [discriminate|assumption].
Qed.

(** Joining the pieces with the separator gives the string back. *)
Lemma join_split (sep : ascii) (s : string) :
  join (String sep EmptyString) (split sep s) = s.
Proof.
  induction s as [|c s IH]; simpl; [reflexivity|].
  destruct (Ascii.eqb c sep) eqn:E.
  - apply Ascii.eqb_eq in E. subst c.
    destruct (split sep s) as [|w ws] eqn:Es.
    + pose proof (split_length sep s) as H. rewrite Es in H. discriminate.
    + simpl in *. now rewrite IH.
  - destruct (split sep s) as [|w ws] eqn:Es.
    + pose proof (split_length sep s) as H. rewrite Es in H. discriminate.
    + destruct ws; simpl in *; now rewrite <- IH.
Qed.

Lemma index_nth_error (x : string) (l : list string) (i : nat) :
  index x l = inr i -> nth_error l i = Some x.
Proof.
  revert i. induction l as [|y l IH]; simpl; intros i; [discriminate|].
  destruct (String.eqb x y) eqn:E.
  - apply String.eqb_eq in E. subst. now intros [= <-].
  - destruct (index x l) as [e|j]; simpl; [discriminate|].
    intros [= <-]. simpl. now apply IH.
Qed.

Lemma index_In (x : string) (l : list string) :
  In x l -> exists i, index x l = inr i.
Proof.
  induction l as [|y l IH]; simpl; [intros []|].
  intros H. destruct (String.eqb x y) eqn:E; [now exists 0|].
  apply String.eqb_neq in E.
  destruct H as [->|H]; [congruence|].
  destruct (IH H) as [i Hi]. rewrite Hi. now exists (S i).
Qed.

Lemma index_inr_In (x : string) (l : list string) (i : nat) :
  index x l = inr i -> In x l.
Proof.
  intros H. apply index_nth_error in H. now apply nth_error_In in H.
Qed.

Lemma nonempty_true (s : string) : nonempty s = true <-> s <> "".
Proof. destruct s; simpl; split; congruence. Qed.

Lemma nonempty_false (s : string) : nonempty s = false <-> s = "".
Proof. destruct s; simpl; split; congruence. Qed.

Lemma nonempty_list_true {A} (l : list A) : nonempty_list l = true <-> l <> [].
Proof. destruct l; simpl; split; congruence. Qed.

Lemma str_in_In (x : string) (l : list string) : str_in x l = true <-> In x l.
Proof.
  unfold str_in. rewrite existsb_exists. split.
  - intros (y & Hy & E). apply String.eqb_eq in E. now subst.
  - intros H. exists x. split; [assumption|apply String.eqb_refl].
Qed.

Lemma dict_mem_true {V} (k : string) (d : dict V) :
  dict_mem k d = true <-> exists v, dict_get k d = Some v.
Proof.
  unfold dict_mem. destruct (dict_get k d) as [v|].
  - split; [eauto|reflexivity].
  - split; [discriminate|]. intros [v H]. discriminate.
Qed.

Lemma lstrip_spec (s : string) :
  exists l, s = l ++ lstrip s /\ all_space l = true
            /\ starts_with_space (lstrip s) = false.
Proof.
  induction s as [|c s (l & Hs & Hl & Hst)]; simpl.
  - exists "". auto.
  - destruct (is_space c) eqn:E.
    + exists (String c l). simpl. rewrite E, Hl. repeat split; congruence.
    + exists "". simpl. auto.
Qed.

Lemma rstrip_spec (s : string) :
  exists r, s = rstrip s ++ r /\ all_space r = true
            /\ ends_with_space (rstrip s) = false.
Proof.
  induction s as [|c s (r & Hs & Hr & Hen)]; simpl.
  - exists "". auto.
  - destruct (rstrip s) as [|a t] eqn:Et.
    + simpl in Hs. subst r.
      destruct (is_space c) eqn:E.
      * exists (String c s). simpl. rewrite E, Hr. auto.
      * exists s. simpl. auto.
    + exists r. simpl. rewrite Hs at 1. auto.
Qed.

Lemma rstrip_keeps_start (s : string) :
  starts_with_space s = false -> starts_with_space (rstrip s) = false.
Proof.
  destruct s as [|c s]; simpl; [reflexivity|].
  intros E. destruct (rstrip s); [rewrite E|]; simpl; auto.
Qed.

(** [strip] removes a run of whitespace at each end, and nothing else: what
    is left neither starts nor ends with whitespace. *)
Lemma strip_spec (s : string) :
  exists l r,
    s = l ++ strip s ++ r
    /\ all_space l = true /\ all_space r = true
    /\ starts_with_space (strip s) = false
    /\ ends_with_space (strip s) = false.
Proof.
  destruct (lstrip_spec s) as (l & Hs & Hl & Hst).
  destruct (rstrip_spec (lstrip s)) as (r & Hs' & Hr & Hen).
  exists l, r. unfold strip.
  rewrite <- Hs'. repeat split; try assumption.
  now apply rstrip_keeps_start.
Qed.

End PyProps.

(* ================================================================== *)
(** ** Properties of the registry and of the response generator *)
(* ================================================================== *)

Module AssistantProps.
Import Messages Assistant.

Lemma random_choice_In {A} (draw : nat) (x : A) (xs : list A) :
  In (random_choice draw x xs) (x :: xs).
Proof.
  unfold random_choice.
  apply nth_In.
  apply Nat.mod_upper_bound. discriminate.
Qed.

Lemma selected_output_widget_In (rnd : Draws) :
  In (selected_output_widget rnd) (possible_output_widgets rnd).
Proof. unfold selected_output_widget. apply random_choice_In. Qed.

Lemma selected_input_widget_In (rnd : Draws) :
  In (selected_input_widget rnd) possible_widgets.
Proof. unfold selected_input_widget. apply random_choice_In. Qed.

(** The three categories are the only values of [response_type]. *)
Lemma response_type_cases (rnd : Draws) :
  response_type rnd = "input_widget" \/ response_type rnd = "output"
  \/ response_type rnd = "output_widget".
Proof.
  pose proof (random_choice_In (response_type_draw rnd)
                "input_widget" ["output"; "output_widget"]) as H.
  unfold response_type. simpl in H. intuition auto.
Qed.

Lemma output_pool_types (rnd : Draws) :
  map widget_type (possible_output_widgets rnd) = output_widget_types.
Proof. reflexivity. Qed.

Lemma input_pool_types :
  map input_widget_type possible_widgets = input_widget_types.
Proof. reflexivity. Qed.

Lemma pool_types_unregistered :
  Forall (fun wt => dict_get (derived_class_name wt) message_registry = None)
         (output_widget_types ++ input_widget_types).
Proof. repeat constructor. Qed.

Lemma selected_output_unregistered (rnd : Draws) :
  dict_get (derived_class_name (widget_type (selected_output_widget rnd)))
           message_registry = None.
Proof.
  pose proof pool_types_unregistered as H.
  rewrite Forall_forall in H. apply H.
  apply in_or_app. left.
  rewrite <- (output_pool_types rnd).
  apply in_map, selected_output_widget_In.
Qed.

Lemma selected_input_unregistered (rnd : Draws) :
  dict_get (derived_class_name (input_widget_type (selected_input_widget rnd)))
           message_registry = None.
Proof.
  pose proof pool_types_unregistered as H.
  rewrite Forall_forall in H. apply H.
  apply in_or_app. right.
  rewrite <- input_pool_types.
  apply in_map, selected_input_widget_In.
Qed.

(** C1 (the code departs from it).  The claim: every widget type of the two
    descriptor pools derives a class name that is a key of the registry.
    The code: none of the thirteen does.  The classes are registered under
    their own names ([LineChart], [TextInput], ...), the generator looks
    them up with the suffix ["Message"] appended ([LineChartMessage], ...),
    so every built-in descriptor takes the unknown-widget branch; the same
    derivation without the suffix finds every one of them. *)
Theorem builtin_widget_types_miss_registry :
  Forall (fun wt => dict_get (derived_class_name wt) message_registry = None)
         (output_widget_types ++ input_widget_types)
  /\ Forall (fun wt => dict_mem (join "" (map capitalize (split "_" wt)))
                                message_registry = true)
            (output_widget_types ++ input_widget_types)
  /\ derived_class_name "line_chart" = "LineChartMessage"
  /\ keys message_registry =
       [ "UserMessage"; "AssistantMessage"; "TextInput"; "Selectbox";
         "Slider"; "Checkbox"; "DateInput"; "TimeInput"; "NumberInput";
         "TextArea"; "LineChart"; "BarChart"; "Image"; "Table"; "Markdown" ].
Proof.
  split; [exact pool_types_unregistered|].
  split; [repeat constructor|].
  split; reflexivity.
Qed.

(** C2 (the code departs from it).  With the registry of [messages.py], the
    call returns the counter unchanged in the plain-text and output-widget
    categories and incremented by one in the input-widget category, as
    claimed; but in the input-widget category what it returns is the
    unknown-widget text message, which carries no widget key: the key
    ["widget_" + counter] is computed and then dropped, because the class
    lookup fails for every descriptor (see C1). *)
Theorem generate_random_response_with_registry :
  (forall rnd user_message widget_counter,
     generate_random_response message_registry rnd user_message widget_counter
     = inr (if String.eqb (response_type rnd) "output"
            then (TextMessage AssistantMessage
                    (Some (selected_message rnd user_message)), widget_counter)
            else if String.eqb (response_type rnd) "output_widget"
            then (unknown_widget_message, widget_counter)
            else (unknown_widget_message, (widget_counter + 1)%Z)))
  /\ generate_random_response message_registry
       {| response_type_draw := 0; message_draw := 0; widget_draw := 0;
          line_chart_data := JArr []; bar_chart_data := JArr [] |} "hello" 0
     = inr (unknown_widget_message, 1%Z).
Proof.
  split; [|reflexivity].
  intros rnd user_message widget_counter.
  unfold generate_random_response.
  destruct (String.eqb (response_type rnd) "output"); [reflexivity|].
  destruct (String.eqb (response_type rnd) "output_widget").
  - rewrite selected_output_unregistered. reflexivity.
  - rewrite selected_input_unregistered. reflexivity.
Qed.

(** C5.  Whatever the registry holds: when the class name derived from the
    selected descriptor's widget type is not one of its keys, the call
    returns (it does not raise) the assistant text message saying that the
    widget type is unknown, in the output-widget category with the counter
    unchanged and in the input-widget category with the counter incremented. *)
Theorem unknown_widget_type_falls_back
  (registry : dict MessageClass) (rnd : Draws)
  (user_message : string) (widget_counter : Z) :
  (response_type rnd = "output_widget" ->
   dict_get (derived_class_name (widget_type (selected_output_widget rnd)))
            registry = None ->
   generate_random_response registry rnd user_message widget_counter
   = inr (TextMessage AssistantMessage
            (Some "Sorry, I encountered an unknown widget type."),
          widget_counter))
  /\
  (response_type rnd = "input_widget" ->
   dict_get (derived_class_name (input_widget_type (selected_input_widget rnd)))
            registry = None ->
   generate_random_response registry rnd user_message widget_counter
   = inr (TextMessage AssistantMessage
            (Some "Sorry, I encountered an unknown widget type."),
          (widget_counter + 1)%Z)).
Proof.
  split; intros Hty Hget; unfold generate_random_response;
    rewrite Hty; simpl; rewrite Hget; reflexivity.
Qed.

Lemma unknown_widget_type_falls_back_witness :
  generate_random_response [("Table", Table)] output_widget_draws "hello" 7
  = inr (TextMessage AssistantMessage
           (Some "Sorry, I encountered an unknown widget type."), 7%Z)
  /\ generate_random_response [] input_widget_draws "hello" 7
     = inr (TextMessage AssistantMessage
              (Some "Sorry, I encountered an unknown widget type."), 8%Z).
Proof.
  split.
  - apply (proj1 (unknown_widget_type_falls_back
                    [("Table", Table)] output_widget_draws "hello" 7));
      reflexivity.
  - apply (proj2 (unknown_widget_type_falls_back
                    [] input_widget_draws "hello" 7));
      reflexivity.
Defined.

(** Had the registry an entry under the derived name: in the input-widget
    category the call returns an instance of that input-widget class built
    from the descriptor's configuration and the key ["widget_" + counter],
    with the counter incremented; in the output-widget category an instance
    of the output-widget class built from the descriptor's data, with the
    counter unchanged. *)
Theorem registered_widget_is_built
  (registry : dict MessageClass) (rnd : Draws)
  (user_message : string) (widget_counter : Z) (cls : MessageClass) :
  (response_type rnd = "input_widget" ->
   dict_get (derived_class_name (input_widget_type (selected_input_widget rnd)))
            registry = Some cls ->
   base_class cls = BaseInputWidget ->
   generate_random_response registry rnd user_message widget_counter
   = inr (InputWidget cls (widget_config (selected_input_widget rnd))
                      ("widget_" ++ str_of_int (widget_counter + 1))
                      JNull false (default_block_chat_input cls),
          (widget_counter + 1)%Z))
  /\
  (response_type rnd = "output_widget" ->
   dict_get (derived_class_name (widget_type (selected_output_widget rnd)))
            registry = Some cls ->
   base_class cls = BaseOutputWidget ->
   generate_random_response registry rnd user_message widget_counter
   = inr (OutputWidget cls (widget_data (selected_output_widget rnd)),
          widget_counter)).
Proof.
  split; intros Hty Hget Hbase; unfold generate_random_response;
    rewrite Hty; simpl; rewrite Hget; unfold instantiate; rewrite Hbase;
    reflexivity.
Qed.

Lemma registered_widget_is_built_witness :
  generate_random_response [("NumberInputMessage", NumberInput)]
                           input_widget_draws "hello" 7
  = inr (InputWidget NumberInput
           (JObj [ ("label", JStr "Assistant asks: Enter a number:");
                   ("min_value", JInt 0); ("max_value", JInt 100);
                   ("default", JInt 50) ])
           "widget_8" JNull false false, 8%Z).
Proof.
  apply (proj1 (registered_widget_is_built
                  [("NumberInputMessage", NumberInput)]
                  input_widget_draws "hello" 7 NumberInput));
    reflexivity.
Defined.

End AssistantProps.

(* ================================================================== *)
(** ** Properties of the function-schema editor *)
(* ================================================================== *)

Module FunctionToolsProps.
Import FunctionTools PyProps.

Lemma bind_inr {A B} (m : result A) (k : A -> result B) (b : B) :
  bind m k = inr b -> exists a, m = inr a /\ k a = inr b.
Proof.
  destruct m as [e|a]; simpl; [discriminate|].
  intros H. now exists a.
Qed.

(** Takes the successful run of a chain of binds apart, step by step. *)
Ltac invert_bind H :=
  lazymatch type of H with
  | bind _ _ = inr _ =>
      let a := fresh "a" in
      let Ha := fresh "Ha" in
      apply bind_inr in H; destruct H as (a & Ha & H)
  end.

Lemma new_FunctionParameter_inr
  (n d t : string) (r : bool) (e : list json) (it : string)
  (p : FunctionParameter) :
  new_FunctionParameter n d t r e it = inr p ->
  name p = n /\ description p = d /\ type p = t /\ required p = r
  /\ enum p = e /\ items_type p = it /\ indexes_agree p.
Proof.
  unfold new_FunctionParameter, __post_init__.
  cbn -[index PARAM_TYPES]. intros H.
  invert_bind H. invert_bind H.
  injection H as <-.
  apply index_nth_error in Ha, Ha0.
  unfold indexes_agree. cbn -[nth_error PARAM_TYPES]. intuition.
Qed.

Lemma new_FunctionParameter_total
  (n d t : string) (r : bool) (e : list json) (it : string) :
  In t PARAM_TYPES -> In it PARAM_TYPES ->
  exists p, new_FunctionParameter n d t r e it = inr p.
Proof.
  intros Ht Hit.
  destruct (index_In _ _ Ht) as [i Hi].
  destruct (index_In _ _ Hit) as [j Hj].
  unfold new_FunctionParameter, __post_init__.
  cbn -[index PARAM_TYPES].
  rewrite Hi, Hj. simpl. eauto.
Qed.

Section WithCollaborators.

Set Default Proof Using "Type".

Variable create_id : nat -> string.
Variable json_dumps : json -> string.
Variable json_loads : string -> result json.

Lemma convert_param_agree (required : json) (param_name : string)
  (param : json) (p : FunctionParameter) :
  convert_param required param_name param = inr p -> indexes_agree p.
Proof.
  unfold convert_param. intros H.
  repeat invert_bind H.
  apply new_FunctionParameter_inr in H.
  destruct H as (_ & _ & _ & _ & _ & _ & H). exact H.
Qed.

Lemma convert_params_agree (required : json) (properties : dict json) :
  forall converted next_id res,
    Forall indexes_agree (values converted) ->
    convert_params create_id required properties converted next_id = inr res ->
    Forall indexes_agree (values (fst res)).
Proof.
  induction properties as [|[param_name param] rest IH];
    intros converted next_id res Hacc H; simpl in H.
  - injection H as <-. assumption.
  - invert_bind H.
    apply (IH _ _ _ (dict_set_Forall _ _ _ _ Hacc
                       (convert_param_agree _ _ _ _ Ha)) H).
Qed.

Lemma convert_agree (schema_name : string) (schema : string + json)
  (next_id : nat) (f : FunctionDict) (next_id' : nat)
  (ps : dict FunctionParameter) :
  convert_openai_function_to_aistream_dict
    create_id json_loads schema_name schema next_id = inr (f, next_id') ->
  fn_parameters f = Some ps ->
  Forall indexes_agree (values ps).
Proof.
  unfold convert_openai_function_to_aistream_dict. intros H Hps.
  repeat invert_bind H.
  injection H as <- <-. simpl in Hps. injection Hps as <-.
  eapply convert_params_agree; [|eassumption]. constructor.
Qed.

Lemma add_parameter_inr (f : FunctionDict) (next_id : nat)
  (ps : dict FunctionParameter) :
  fn_parameters f = Some ps ->
  exists p,
    add_parameter create_id f next_id
    = inr (set_parameters f (dict_set (create_id next_id) p ps), S next_id)
    /\ name p = "" /\ description p = "" /\ type p = "string"
    /\ required p = true /\ enum p = [] /\ items_type p = "string"
    /\ type_index p = 0 /\ items_type_index p = 0 /\ indexes_agree p.
Proof.
  intros Hps. unfold add_parameter. rewrite Hps. simpl.
  eexists. split; [reflexivity|].
  unfold indexes_agree. simpl. repeat split.
Qed.

Lemma parameter_input_inr (ui : ParameterWidgets) (param : FunctionParameter)
  (param_id : string) (p : FunctionParameter) :
  parameter_input ui param param_id = inr p ->
  name p = name_input ui
  /\ description p = description_input ui
  /\ type p = type_select ui
  /\ required p = required_checkbox ui
  /\ enum p = (if str_in (type_select ui) ["string"; "number"; "integer"]
               then map JStr (parse_enum (enum_input ui)) else [])
  /\ items_type p = (if String.eqb (type_select ui) "array"
                     then items_type_select ui else "string")
  /\ indexes_agree p.
Proof.
  unfold parameter_input. intros H.
  invert_bind H.
  apply new_FunctionParameter_inr in H.
  destruct H as (Hn & Hd & Ht & Hr & He & Hit & Hag).
  repeat split; try assumption; try apply Hag.
  rewrite He.
  destruct (str_in (type_select ui) ["string"; "number"; "integer"]).
  - invert_bind Ha. now injection Ha as <-.
  - now injection Ha as <-.
Qed.

Lemma join_json_total (sep : string) (l : list json) :
  Forall (fun x => exists w, x = JStr w) l ->
  exists joined, join_json sep l = inr joined.
Proof.
  induction 1 as [|x l [w ->] Hl [joined IH]]; simpl; [eauto|].
  destruct l as [|y l]; [eauto|].
  rewrite IH. simpl. eauto.
Qed.

(** With what the two select boxes can return (an entry of [PARAM_TYPES])
    and an enum list of strings to show, [parameter_input] returns. *)
Lemma parameter_input_total (ui : ParameterWidgets) (param : FunctionParameter)
  (param_id : string) :
  In (type_select ui) PARAM_TYPES ->
  In (items_type_select ui) PARAM_TYPES ->
  Forall (fun x => exists w, x = JStr w) (enum param) ->
  exists p, parameter_input ui param param_id = inr p.
Proof.
  intros Hty Hit Hen. unfold parameter_input.
  destruct (join_json_total ", " _ Hen) as [joined Hj].
  destruct (str_in (type_select ui) ["string"; "number"; "integer"]);
    [rewrite Hj|]; cbn [bind ret];
    (apply new_FunctionParameter_total; [assumption|]);
    (destruct (String.eqb (type_select ui) "array");
     [assumption | simpl; auto]).
Qed.

End WithCollaborators.

(** C9.  A [FunctionParameter] built with a type and an items type taken
    from [PARAM_TYPES] is built without error, keeps its six fields, and has
    [PARAM_TYPES[type_index] = type] and
    [PARAM_TYPES[items_type_index] = items_type]; and every parameter that
    [convert_openai_function_to_aistream_dict], [add_parameter] or
    [parameter_input] produces satisfies the same two equations. *)
Theorem function_parameter_indexes :
  (forall (n d t : string) (r : bool) (e : list json) (it : string),
     In t PARAM_TYPES -> In it PARAM_TYPES ->
     exists p,
       new_FunctionParameter n d t r e it = inr p
       /\ name p = n /\ description p = d /\ type p = t /\ required p = r
       /\ enum p = e /\ items_type p = it
       /\ nth_error PARAM_TYPES (type_index p) = Some (type p)
       /\ nth_error PARAM_TYPES (items_type_index p) = Some (items_type p))
  /\ (forall create_id json_loads schema_name schema next_id f next_id' ps,
        convert_openai_function_to_aistream_dict
          create_id json_loads schema_name schema next_id = inr (f, next_id') ->
        fn_parameters f = Some ps ->
        Forall indexes_agree (values ps))
  /\ (forall create_id f next_id ps,
        fn_parameters f = Some ps ->
        exists p,
          add_parameter create_id f next_id
          = inr (set_parameters f (dict_set (create_id next_id) p ps),
                 S next_id)
          /\ indexes_agree p)
  /\ (forall ui param param_id p,
        parameter_input ui param param_id = inr p -> indexes_agree p)
  /\ (forall ui param param_id,
        In (type_select ui) PARAM_TYPES ->
        In (items_type_select ui) PARAM_TYPES ->
        Forall (fun x => exists w, x = JStr w) (enum param) ->
        exists p, parameter_input ui param param_id = inr p
                  /\ indexes_agree p).
Proof.
  split; [|split; [|split; [|split]]].
  - intros n d t r e it Ht Hit.
    destruct (new_FunctionParameter_total n d t r e it Ht Hit) as [p Hp].
    exists p. split; [assumption|].
    apply new_FunctionParameter_inr in Hp. unfold indexes_agree in Hp.
    intuition.
  - intros create_id json_loads schema_name schema next_id f next_id' ps H Hps.
    exact (convert_agree create_id json_loads schema_name schema next_id f
             next_id' ps H Hps).
  - intros create_id f next_id ps Hps.
    destruct (add_parameter_inr create_id f next_id ps Hps) as (p & H & Hrest).
    exists p. intuition.
  - intros ui param param_id p H.
    apply parameter_input_inr in H. intuition.
  - intros ui param param_id Hty Hit Hen.
    destruct (parameter_input_total ui param param_id Hty Hit Hen) as [p Hp].
    exists p. split; [assumption|].
    apply parameter_input_inr in Hp. intuition.
Qed.

Lemma function_parameter_indexes_witness :
  (exists p,
     new_FunctionParameter "tags" "Labels" "array" false [] "integer" = inr p
     /\ type_index p = 4 /\ items_type_index p = 2)
  /\ Forall indexes_agree
            [ {| name := "city"; description := "City name"; type := "string";
                 required := true; enum := [JStr "Paris"; JStr "Rome"];
                 items_type := "string";
                 type_index := 0; items_type_index := 0 |};
              {| name := "tags"; description := "Labels"; type := "array";
                 required := false; enum := []; items_type := "integer";
                 type_index := 4; items_type_index := 2 |} ]
  /\ indexes_agree Samples.unnamed_param
  /\ (exists p,
        parameter_input Samples.sample_widgets Samples.city_param "p1" = inr p
        /\ indexes_agree p).
Proof.
  split; [|split; [|split]].
  - destruct (proj1 function_parameter_indexes
                "tags" "Labels" "array" false [] "integer")
      as (p & Hp & _); [simpl; auto 10 | simpl; auto 10 |].
    exists p. split; [exact Hp|].
    vm_compute in Hp. injection Hp as <-. split; reflexivity.
  - exact (proj1 (proj2 function_parameter_indexes)
             Samples.sample_create_id Samples.reject_json_text "Weather"
             (inr (fst (build_json_schema
                          Samples.blank_json_text (JStr "weather")
                          (JStr "Look up the weather")
                          Samples.sample_parameters)))
             0 _ _ _ eq_refl eq_refl).
  - destruct (proj1 (proj2 (proj2 function_parameter_indexes))
                Samples.sample_create_id Samples.sample_function 0
                Samples.sample_parameters eq_refl) as (p & Hp & Hag).
    vm_compute in Hp. injection Hp as <-. exact Hag.
  - apply (proj2 (proj2 (proj2 (proj2 function_parameter_indexes)))
             Samples.sample_widgets Samples.city_param "p1").
    + simpl. auto.
    + simpl. auto.
    + repeat constructor; eexists; reflexivity.
Defined.

(** C7.  The enum list comes from the enum input by splitting at the commas
    and stripping each piece (removing the whitespace at its two ends):
    ["a, b ,c"] gives [["a"; "b"; "c"]], the empty input gives the empty
    list, and a no-break space (0xa0) or a next-line character (0x85) at the
    end of a piece is removed like a space; and for a parameter whose
    selected type is string, number or integer this list is the [enum] of
    the parameter that [parameter_input] returns. *)
Theorem enum_input_parsing :
  parse_enum "a, b ,c" = ["a"; "b"; "c"]
  /\ parse_enum "" = []
  /\ parse_enum (String "a" (String "," (String (ascii_of_nat 160)
                   (String "b" (String (ascii_of_nat 133) EmptyString)))))
     = ["a"; "b"]
  /\ (forall c rest,
        parse_enum (String c rest) = map strip (split "," (String c rest))
        /\ join "," (split "," (String c rest)) = String c rest)
  /\ (forall piece,
        exists l r,
          piece = l ++ strip piece ++ r
          /\ all_space l = true /\ all_space r = true
          /\ starts_with_space (strip piece) = false
          /\ ends_with_space (strip piece) = false)
  /\ (forall ui param param_id p,
        parameter_input ui param param_id = inr p ->
        str_in (type_select ui) ["string"; "number"; "integer"] = true ->
        enum p = map JStr (parse_enum (enum_input ui))).
Proof.
  split; [reflexivity|]. split; [reflexivity|]. split; [reflexivity|].
  split; [intros c rest; split; [reflexivity|apply join_split]|].
  split; [exact strip_spec|].
  intros ui param param_id p H Hty.
  apply parameter_input_inr in H.
  destruct H as (_ & _ & _ & _ & He & _). now rewrite Hty in He.
Qed.

Lemma enum_input_parsing_witness :
  exists p,
    parameter_input Samples.sample_widgets Samples.city_param "p1" = inr p
    /\ enum p = [JStr "a"; JStr "b"; JStr "c"].
Proof.
  eexists. split; [reflexivity|].
  apply (proj2 (proj2 (proj2 (proj2 (proj2 enum_input_parsing))))
           Samples.sample_widgets Samples.city_param "p1");
    reflexivity.
Defined.

(** C10.  A non-empty enum input yields one entry per comma-separated
    segment, that is, one more than it has commas: each entry is its segment
    stripped, so an empty segment stays as an empty string.  ["a,"] gives
    [["a"; ""]] and ["a,,b"] gives [["a"; ""; "b"]]. *)
Theorem enum_input_keeps_empty_segments (enum_input : string) :
  enum_input <> "" ->
  parse_enum enum_input = map strip (split "," enum_input)
  /\ List.length (parse_enum enum_input) = S (count "," enum_input)
  /\ join "," (split "," enum_input) = enum_input
  /\ parse_enum "a," = ["a"; ""]
  /\ parse_enum "a,,b" = ["a"; ""; "b"].
Proof.
  intros Hne.
  assert (H : parse_enum enum_input = map strip (split "," enum_input)).
  { destruct enum_input; [congruence|reflexivity]. }
  split; [exact H|].
  split; [rewrite H, length_map; apply split_length|].
  split; [apply join_split|].
  split; reflexivity.
Qed.

Lemma enum_input_keeps_empty_segments_witness :
  parse_enum " x ,, y," = ["x"; ""; "y"; ""]
  /\ List.length (parse_enum " x ,, y,") = 4.
Proof.
  destruct (enum_input_keeps_empty_segments " x ,, y,") as (H & Hlen & _);
    [discriminate|].
  split; [exact H | exact Hlen].
Defined.

(** C8.  When the parameter mapping holds [param_id], [remove_parameter]
    succeeds and takes out exactly that entry: the entries before and after
    it stay, in their order and with their values; the id is no longer
    bound, every other id is bound as before, and the other keys of the
    function dict are untouched. *)
Theorem remove_parameter_exactly
  (selected_function : FunctionDict) (parameters : dict FunctionParameter)
  (param_id : string) (param : FunctionParameter) :
  wf_dict parameters ->
  fn_parameters selected_function = Some parameters ->
  dict_get param_id parameters = Some param ->
  exists before after,
    parameters = (before ++ (param_id, param) :: after)%list
    /\ remove_parameter selected_function param_id
       = inr {| fn_name := fn_name selected_function;
                fn_schema_name := fn_schema_name selected_function;
                fn_description := fn_description selected_function;
                fn_parameters := Some (before ++ after)%list;
                fn_id := fn_id selected_function |}
    /\ dict_get param_id (before ++ after)%list = None
    /\ (forall k, k <> param_id ->
                  dict_get k (before ++ after)%list = dict_get k parameters).
Proof.
  intros Hwf Hps Hget.
  destruct (dict_remove_split _ _ _ Hwf Hget) as (before & after & Hd & Hr).
  exists before, after.
  split; [exact Hd|].
  split.
  - unfold remove_parameter, dict_del, dict_mem.
    rewrite Hps. simpl. rewrite Hget. simpl. now rewrite Hr.
  - rewrite <- Hr. split.
    + apply dict_get_remove_eq.
    + intros k Hk. now apply dict_get_remove_neq.
Qed.

Lemma remove_parameter_exactly_witness :
  exists before after,
    Samples.sample_parameters
    = (before ++ ("p2", Samples.unnamed_param) :: after)%list
    /\ remove_parameter Samples.sample_function "p2"
       = inr {| fn_name := fn_name Samples.sample_function;
                fn_schema_name := fn_schema_name Samples.sample_function;
                fn_description := fn_description Samples.sample_function;
                fn_parameters := Some (before ++ after)%list;
                fn_id := fn_id Samples.sample_function |}
    /\ dict_get "p2" (before ++ after)%list = None
    /\ (forall k, k <> "p2" ->
                  dict_get k (before ++ after)%list
                  = dict_get k Samples.sample_parameters).
Proof.
  apply (remove_parameter_exactly
           Samples.sample_function Samples.sample_parameters
           "p2" Samples.unnamed_param).
  - repeat constructor; simpl; intuition discriminate.
  - reflexivity.
  - reflexivity.
Defined.

Section WithStore.

Set Default Proof Using "Type".

Variable create_id : nat -> string.
Variable json_dumps : json -> string.
Variable json_loads : string -> result json.
Variable store : string -> result Item.

(** When the requested function is the active one, the table is not read
    and the session state stays as it is. *)
Lemma get_function_active (ui : EditorWidgets) (app_state : AppState)
  (function_id : string) (next_id : nat) :
  needs_reloading app_state function_id = false ->
  fst (get_function create_id json_dumps json_loads store
         ui app_state function_id next_id) = app_state.
Proof.
  intros H. unfold get_function. rewrite H. reflexivity.
Qed.

(** C6.  When [get_function] looks the requested id up in the table (it
    does so whenever that id is not the one of the active function) and the
    lookup raises [DoesNotExist], the exception is caught: the current
    function becomes the blank record of [new_function] (function name [""],
    schema name ["NewFunction"], description [""], no parameters) with
    ["id"] set to the requested id, the rest of the session state is kept,
    and outside expert mode that record is what the call returns.  In
    expert mode the call returns the conversion of the editor's text, which
    for an untouched editor (and a [json.loads] that reads back what
    [json.dumps] wrote) is the blank record again. *)
Theorem get_function_not_found (ui : EditorWidgets) (app_state : AppState)
  (function_id : string) (next_id : nat) :
  needs_reloading app_state function_id = true ->
  store function_id = inl DoesNotExist ->
  let blank := {| fn_name := Some (JStr "");
                  fn_schema_name := Some "NewFunction";
                  fn_description := Some (JStr "");
                  fn_parameters := Some [];
                  fn_id := Some function_id |} in
  let outcome := get_function create_id json_dumps json_loads store
                              ui app_state function_id next_id in
  current_function (fst outcome) = blank
  /\ fst outcome = set_current_function app_state blank
  /\ (expert_mode ui = false -> snd outcome = inr (blank, next_id))
  /\ (expert_mode ui = true ->
      snd outcome
      = convert_openai_function_to_aistream_dict
          create_id json_loads "NewFunction"
          (inl (if nonempty (code_text ui) then code_text ui
                else snd (build_json_schema json_dumps (JStr "") (JStr "") [])))
          next_id)
  /\ (expert_mode ui = true -> code_text ui = "" ->
      (let schema := fst (build_json_schema json_dumps (JStr "") (JStr "") []) in
       json_loads (json_dumps schema) = inr schema) ->
      snd outcome
      = inr ({| fn_name := Some (JStr "");
                fn_schema_name := Some "NewFunction";
                fn_description := Some (JStr "");
                fn_parameters := Some [];
                fn_id := None |}, next_id)).
Proof.
  intros Hreload Hstore blank outcome.
  assert (Hout : outcome
                 = (set_current_function app_state blank,
                    selected_function create_id json_dumps json_loads
                                      ui blank next_id)).
  { unfold outcome, get_function, reload_function.
    rewrite Hreload, Hstore. reflexivity. }
  rewrite Hout. simpl.
  split; [reflexivity|]. split; [reflexivity|].
  split; [|split]; intros Hmode; unfold selected_function; rewrite Hmode;
    try reflexivity.
  intros Htext Hparse. cbn [key fn_name fn_description fn_parameters
                            fn_schema_name blank bind ret].
  rewrite Htext. cbn [nonempty].
  unfold convert_openai_function_to_aistream_dict.
  cbn [build_json_schema snd fst] in Hparse |- *.
  rewrite Hparse. reflexivity.
Qed.

End WithStore.

Lemma get_function_active_witness :
  fst (get_function Samples.sample_create_id Samples.blank_json_text
         Samples.reject_json_text Samples.empty_store
         Samples.sample_editor Samples.sample_app_state "f0" 0)
  = Samples.sample_app_state.
Proof.
  apply (get_function_active
           Samples.sample_create_id Samples.blank_json_text
           Samples.reject_json_text Samples.empty_store
           Samples.sample_editor Samples.sample_app_state "f0" 0).
  reflexivity.
Defined.

Lemma get_function_not_found_witness :
  let outcome := get_function Samples.sample_create_id Samples.blank_json_text
                   Samples.reject_json_text Samples.empty_store
                   Samples.sample_editor Samples.sample_app_state "f1" 0 in
  current_function (fst outcome)
  = {| fn_name := Some (JStr ""); fn_schema_name := Some "NewFunction";
       fn_description := Some (JStr ""); fn_parameters := Some [];
       fn_id := Some "f1" |}
  /\ snd outcome
     = inr ({| fn_name := Some (JStr ""); fn_schema_name := Some "NewFunction";
               fn_description := Some (JStr ""); fn_parameters := Some [];
               fn_id := Some "f1" |}, 0).
Proof.
  destruct (get_function_not_found
              Samples.sample_create_id Samples.blank_json_text
              Samples.reject_json_text Samples.empty_store
              Samples.sample_editor Samples.sample_app_state "f1" 0
              eq_refl eq_refl) as (Hcur & _ & Hret & _).
  split; [exact Hcur | exact (Hret eq_refl)].
Defined.

(** *** The schema built from a parameter mapping *)

Lemma build_property_describes (p : FunctionParameter) :
  property_describes (build_property p) p.
Proof.
  unfold property_describes, build_property.
  pose proof (str_in_In (type p) ["string"; "number"; "integer"]) as Hty.
  pose proof (nonempty_list_true (enum p)) as Hen.
  pose proof (String.eqb_eq (type p) "array") as Har.
  destruct (str_in (type p) ["string"; "number"; "integer"]);
    destruct (nonempty_list (enum p));
    destruct (String.eqb (type p) "array");
    (eexists; split; [reflexivity|]);
    cbn [dict_get dict_set String.eqb Ascii.eqb Bool.eqb keys map fst];
    (repeat split; [ .. | intros k Hk; simpl in Hk |- *; tauto ]);
    intuition (try congruence; try discriminate).
Qed.

(** Parameters that do not add the key [n] leave its binding alone. *)
Lemma add_properties_other (n : string) (l : list FunctionParameter) :
  forall acc,
    (forall q, In q l -> nonempty (name q) = true -> name q <> n) ->
    dict_get n (fold_left add_property l acc) = dict_get n acc.
Proof.
  induction l as [|x l IH]; intros acc Hl; simpl; [reflexivity|].
  rewrite IH by (intros q Hq; apply Hl; now right).
  unfold add_property.
  destruct (nonempty (name x)) eqn:E; simpl; [|reflexivity].
  apply dict_get_set_neq. intros ->. now apply (Hl x (or_introl eq_refl)).
Qed.

(** The property stored under a name is the one of the last parameter
    carrying that name. *)
Lemma add_properties_last (before after : list FunctionParameter)
  (p : FunctionParameter) (acc : dict json) :
  name p <> "" ->
  (forall q, In q after -> name q <> name p) ->
  dict_get (name p) (fold_left add_property (before ++ p :: after)%list acc)
  = Some (build_property p).
Proof.
  intros Hne Hafter.
  rewrite fold_left_app. simpl.
  rewrite add_properties_other by (intros q Hq _; now apply Hafter).
  unfold add_property.
  apply nonempty_true in Hne. rewrite Hne. simpl.
  apply dict_get_set_eq.
Qed.

Lemma last_named_split (n : string) (l : list FunctionParameter) :
  (forall q, In q l -> name q <> n)
  \/ exists before p after,
       l = (before ++ p :: after)%list /\ name p = n
       /\ (forall q, In q after -> name q <> n).
Proof.
  induction l as [|x l IH].
  - left. intros q [].
  - destruct IH as [Hnone|(before & p & after & -> & Hp & Hafter)].
    + destruct (string_dec (name x) n) as [E|E].
      * right. exists [], x, l. auto.
      * left. intros q [<-|Hq]; auto.
    + right. exists (x :: before), p, after. auto.
Qed.

Lemma build_properties_get (parameters : dict FunctionParameter)
  (n : string) (prop : json) :
  dict_get n (build_properties parameters) = Some prop ->
  n <> ""
  /\ exists before p after,
       values parameters = (before ++ p :: after)%list /\ name p = n
       /\ (forall q, In q after -> name q <> n)
       /\ prop = build_property p.
Proof.
  unfold build_properties. intros H.
  assert (Hn : n <> "").
  { intros ->. rewrite add_properties_other in H; [discriminate|].
    intros q _ Hq. now apply nonempty_true in Hq. }
  split; [assumption|].
  destruct (last_named_split n (values parameters))
    as [Hnone|(before & p & after & Hl & Hp & Hafter)].
  - rewrite add_properties_other in H; [discriminate|].
    intros q Hq _. now apply Hnone.
  - exists before, p, after. repeat split; try assumption.
    rewrite Hl in H. subst n.
    rewrite add_properties_last in H by assumption.
    congruence.
Qed.

Lemma build_properties_mem (parameters : dict FunctionParameter) (n : string) :
  dict_mem n (build_properties parameters) = true
  <-> n <> "" /\ exists p, In p (values parameters) /\ name p = n.
Proof.
  rewrite dict_mem_true. split.
  - intros [prop H]. apply build_properties_get in H.
    destruct H as (Hn & before & p & after & Hl & Hp & _).
    split; [assumption|]. exists p. split; [|assumption].
    rewrite Hl. apply in_or_app. right. now left.
  - intros (Hn & p & Hin & Hp).
    destruct (last_named_split n (values parameters))
      as [Hnone|(before & p' & after & Hl & Hp' & Hafter)].
    + exfalso. now apply (Hnone p).
    + clear p Hin Hp. subst n.
      exists (build_property p'). unfold build_properties.
      rewrite Hl. now apply add_properties_last.
Qed.

Lemma after_distinct (before after : list FunctionParameter)
  (p q : FunctionParameter) :
  NoDup (map name (filter (fun x => nonempty (name x))
                          (before ++ p :: after)%list)) ->
  name p <> "" -> In q after -> name q <> name p.
Proof.
  intros Hnd Hne Hq E.
  rewrite filter_app in Hnd. simpl in Hnd.
  apply nonempty_true in Hne. rewrite Hne in Hnd.
  rewrite map_app in Hnd. simpl in Hnd.
  apply NoDup_remove_2 in Hnd. apply Hnd.
  apply in_or_app. right. rewrite <- E.
  apply in_map. apply filter_In. split; [assumption|]. now rewrite E.
Qed.

(** C4, as amended.  The schema [build_json_schema] returns holds the given
    name and description and a ["parameters"] object of type ["object"]
    whose properties are keyed by exactly the non-empty parameter names; the
    property under a name is the one of the last parameter in the mapping
    that carries the name, hence of every named parameter when the
    non-empty names are pairwise distinct; it holds that parameter's type
    and description, its enum list exactly when the type is string, number
    or integer and the list is not empty, and [items] with its item type
    exactly when the type is array; ["required"] lists the names of the
    named parameters flagged required, in mapping order, and is left out
    when there is none. *)
Theorem build_json_schema_shape (json_dumps : json -> string)
  (function_name function_description : json)
  (parameters : dict FunctionParameter) :
  exists properties parameters_object,
    fst (build_json_schema json_dumps function_name function_description
                           parameters)
    = JObj [ ("name", function_name);
             ("description", function_description);
             ("parameters", JObj parameters_object) ]
    /\ dict_get "type" parameters_object = Some (JStr "object")
    /\ dict_get "properties" parameters_object = Some (JObj properties)
    /\ (forall n, dict_mem n properties = true
                  <-> n <> "" /\ exists p, In p (values parameters)
                                           /\ name p = n)
    /\ (forall n prop,
          dict_get n properties = Some prop ->
          exists before p after,
            values parameters = (before ++ p :: after)%list
            /\ name p = n
            /\ (forall q, In q after -> name q <> n)
            /\ property_describes prop p)
    /\ (forall before p after,
          values parameters = (before ++ p :: after)%list ->
          name p <> "" ->
          (forall q, In q after -> name q <> name p) ->
          exists prop, dict_get (name p) properties = Some prop
                       /\ property_describes prop p)
    /\ (NoDup (map name (named parameters)) ->
        forall p,
          In p (values parameters) -> name p <> "" ->
          exists prop, dict_get (name p) properties = Some prop
                       /\ property_describes prop p)
    /\ dict_get "required" parameters_object
       = match map name (filter (fun p => required p && nonempty (name p))
                                (values parameters)) with
         | [] => None
         | names => Some (JArr (map JStr names))
         end.
Proof.
  exists (build_properties parameters).
  unfold build_json_schema, build_schema, required_params. simpl fst.
  eexists. split; [reflexivity|].
  split.
  { destruct (map name _); reflexivity. }
  split.
  { destruct (map name _); reflexivity. }
  split; [apply build_properties_mem|].
  split.
  { intros n prop H. apply build_properties_get in H.
    destruct H as (_ & before & p & after & Hl & Hp & Hafter & ->).
    exists before, p, after. repeat split; try assumption.
    apply build_property_describes. }
  split.
  { intros before p after Hl Hne Hafter.
    exists (build_property p). split; [|apply build_property_describes].
    unfold build_properties. rewrite Hl.
    now apply add_properties_last. }
  split.
  { intros Hnd p Hin Hne.
    destruct (in_split _ _ Hin) as (before & after & Hl).
    exists (build_property p). split; [|apply build_property_describes].
    unfold build_properties. rewrite Hl.
    apply add_properties_last; [assumption|].
    intros q Hq. unfold named in Hnd. rewrite Hl in Hnd.
    now apply (after_distinct before after p q Hnd Hne). }
  destruct (map name _); reflexivity.
Qed.

(** C4, as stated, fails when two parameters share a name.  Of the two
    parameters named ["city"] the schema holds one property, built from the
    later one: it carries the description ["City name"] and an enum list,
    while the earlier parameter has the description ["Departure"] and no
    enum values, so no property describes that parameter. *)
Lemma shared_name_one_property :
  exists prop,
    fst (build_json_schema Samples.blank_json_text (JStr "f") (JStr "d")
           [("p1", Samples.first_city_param); ("p2", Samples.city_param)])
    = JObj [ ("name", JStr "f"); ("description", JStr "d");
             ("parameters",
              JObj [ ("type", JStr "object");
                     ("properties", JObj [("city", prop)]);
                     ("required", JArr [JStr "city"]) ]) ]
    /\ prop = JObj [ ("type", JStr "string");
                     ("description", JStr "City name");
                     ("enum", JArr [JStr "Paris"; JStr "Rome"]) ]
    /\ name Samples.first_city_param = "city"
    /\ description Samples.first_city_param = "Departure"
    /\ enum Samples.first_city_param = []
    /\ ~ property_describes prop Samples.first_city_param.
Proof.
  eexists. split; [reflexivity|].
  repeat (split; [reflexivity|]).
  intros (d & Hd & _ & Hdesc & _).
  injection Hd as <-. simpl in Hdesc. discriminate.
Qed.

(** *** Schema to parameters and back *)

Lemma existsb_names (n : string) (names : list string) :
  existsb (fun x => match x with
                    | JStr s => String.eqb s n
                    | _ => false
                    end) (map JStr names)
  = str_in n names.
Proof.
  unfold str_in.
  induction names as [|y names IH]; simpl; [reflexivity|].
  now rewrite IH, String.eqb_sym.
Qed.

(** A property that describes [p] converts back to [p], up to the fields
    the property does not carry. *)
Lemma convert_param_described (names : list string) (prop : json)
  (p : FunctionParameter) :
  property_describes prop p ->
  indexes_agree p ->
  exists q,
    convert_param (JArr (map JStr names)) (name p) prop = inr q
    /\ name q = name p /\ description q = description p /\ type q = type p
    /\ required q = str_in (name p) names
    /\ enum q = (if str_in (type p) ["string"; "number"; "integer"]
                 then enum p else [])
    /\ items_type q = (if String.eqb (type p) "array"
                       then items_type p else "string")
    /\ indexes_agree q.
Proof.
  intros (d & -> & Hty & Hde & Hen & Hnoen & Hit & Hnoit & _) [Hti Hii].
  apply nth_error_In in Hti, Hii.
  assert (Hq : exists q,
             new_FunctionParameter
               (name p) (description p) (type p) (str_in (name p) names)
               (if str_in (type p) ["string"; "number"; "integer"]
                then enum p else [])
               (if String.eqb (type p) "array" then items_type p else "string")
             = inr q).
  { apply new_FunctionParameter_total; [assumption|].
    destruct (String.eqb (type p) "array"); [assumption|].
    simpl. auto. }
  destruct Hq as [q Hq]. exists q.
  split; [|apply new_FunctionParameter_inr in Hq; exact Hq].
  rewrite <- Hq. clear Hq.
  destruct (index_In _ _ Hti) as [i Hi].
  unfold convert_param, getitem, get_default, contains.
  rewrite Hty, Hde, existsb_names.
  cbn [bind ret as_str].
  assert (Een : as_list IllTyped
                  (match dict_get "enum" d with
                   | Some v => v
                   | None => JArr []
                   end)
                = inr (if str_in (type p) ["string"; "number"; "integer"]
                       then enum p else [])).
  { destruct (str_in (type p) ["string"; "number"; "integer"]) eqn:E.
    - apply str_in_In in E.
      destruct (enum p) as [|e es] eqn:Ee.
      + rewrite Hnoen; [reflexivity|]. intros [_ H]. now apply H.
      + rewrite Hen; [reflexivity|]. split; [assumption|discriminate].
    - rewrite Hnoen; [reflexivity|].
      intros [H _]. apply str_in_In in H. congruence. }
  destruct (String.eqb (type p) "array") eqn:Ear.
  - apply String.eqb_eq in Ear. rewrite (Hit Ear).
    cbn [dict_get String.eqb Ascii.eqb Bool.eqb bind ret as_str].
    destruct (index_In _ _ Hii) as [j Hj].
    rewrite Hi, Hj. cbn [bind ret]. rewrite Een. reflexivity.
  - apply String.eqb_neq in Ear. rewrite (Hnoit Ear).
    cbn [dict_get bind ret as_str].
    rewrite Hi. cbn [bind ret].
    change (index "string" PARAM_TYPES) with (@inr exn nat 0).
    cbn [bind ret]. rewrite Een. reflexivity.
Qed.

Lemma add_property_named (acc : dict json) (x : FunctionParameter) :
  nonempty (name x) = true ->
  add_property acc x = dict_set (name x) (build_property x) acc.
Proof. intros E. unfold add_property. now rewrite E. Qed.

Lemma add_property_unnamed (acc : dict json) (x : FunctionParameter) :
  nonempty (name x) = false -> add_property acc x = acc.
Proof. intros E. unfold add_property. now rewrite E. Qed.

Lemma add_properties_distinct (l : list FunctionParameter) :
  forall acc,
    NoDup (keys acc ++ map name (filter (fun p => nonempty (name p)) l))%list ->
    fold_left add_property l acc
    = (acc ++ map (fun p => (name p, build_property p))
                  (filter (fun p => nonempty (name p)) l))%list.
Proof.
  induction l as [|x l IH]; intros acc Hnd; simpl in *.
  - now rewrite app_nil_r.
  - destruct (nonempty (name x)) eqn:E; simpl in *.
    + rewrite (add_property_named _ _ E).
      assert (Hfresh : dict_get (name x) acc = None).
      { apply dict_get_None_keys. intros Hin.
        apply NoDup_remove_2 in Hnd. apply Hnd.
        apply in_or_app. now left. }
      rewrite (dict_set_fresh _ _ _ Hfresh).
      rewrite IH.
      * now rewrite <- app_assoc.
      * unfold keys in *. rewrite map_app, <- app_assoc. simpl.
        exact Hnd.
    + rewrite (add_property_unnamed _ _ E). now apply IH.
Qed.

Lemma build_properties_distinct (parameters : dict FunctionParameter) :
  NoDup (map name (named parameters)) ->
  build_properties parameters
  = map (fun p => (name p, build_property p)) (named parameters).
Proof.
  intros Hnd. unfold build_properties.
  now rewrite add_properties_distinct.
Qed.

Lemma NoDup_map_name_eq (l : list FunctionParameter) (p q : FunctionParameter) :
  NoDup (map name l) -> In p l -> In q l -> name p = name q -> p = q.
Proof.
  induction l as [|x l IH]; simpl; [intros _ []|].
  intros Hnd Hp Hq E. inversion Hnd as [|? ? Hnotin Hnd']; subst.
  destruct Hp as [->|Hp], Hq as [->|Hq]; auto.
  - exfalso. apply Hnotin. rewrite E. now apply in_map.
  - exfalso. apply Hnotin. rewrite <- E. now apply in_map.
Qed.

(** With distinct names, a name is listed as required exactly when its
    parameter is flagged. *)
Lemma required_params_distinct (parameters : dict FunctionParameter)
  (p : FunctionParameter) :
  NoDup (map name (named parameters)) ->
  In p (named parameters) ->
  str_in (name p) (required_params parameters) = required p.
Proof.
  intros Hnd Hp. unfold required_params.
  destruct (required p) eqn:Er.
  - apply str_in_In. apply in_map. apply filter_In.
    unfold named in Hp. apply filter_In in Hp. destruct Hp as [Hin Hne].
    split; [assumption|]. now rewrite Er, Hne.
  - destruct (str_in _ _) eqn:E; [|reflexivity].
    apply str_in_In in E. apply in_map_iff in E.
    destruct E as (q & Hname & Hq). apply filter_In in Hq.
    destruct Hq as [Hq Hreq]. apply andb_true_iff in Hreq.
    destruct Hreq as [Hreq Hne].
    assert (q = p).
    { apply (NoDup_map_name_eq (named parameters)); try assumption.
      unfold named. apply filter_In. now split. }
    subst q. congruence.
Qed.

Section RoundTrip.

Set Default Proof Using "Type".

Variable create_id : nat -> string.
Hypothesis create_id_fresh : forall i j, create_id i = create_id j -> i = j.

(** The conversion loop, when every property converts and the ids are
    fresh: the new entries are appended in order. *)
Lemma convert_params_append (required : json) (properties : dict json)
  (qs : list FunctionParameter) :
  Forall2 (fun kv q => convert_param required (fst kv) (snd kv) = inr q)
          properties qs ->
  forall converted next_id,
    (forall k, In k (keys converted) ->
               exists j, j < next_id /\ k = create_id j) ->
    convert_params create_id required properties converted next_id
    = inr ((converted
            ++ combine (map create_id (seq next_id (List.length qs))) qs)%list,
           next_id + List.length qs).
Proof using create_id_fresh.
  induction 1 as [|[param_name param] q rest qs Hq Hrest IH];
    intros converted next_id Hkeys; simpl.
  - now rewrite app_nil_r, Nat.add_0_r.
  - simpl in Hq. rewrite Hq. cbn [bind].
    assert (Hfresh : dict_get (create_id next_id) converted = None).
    { apply dict_get_None_keys. intros Hin.
      destruct (Hkeys _ Hin) as (j & Hj & E).
      apply create_id_fresh in E. lia. }
    rewrite (dict_set_fresh _ _ _ Hfresh).
    rewrite IH.
    + now rewrite <- app_assoc, Nat.add_succ_r.
    + intros k Hk. unfold keys in Hk. rewrite map_app in Hk.
      apply in_app_or in Hk. destruct Hk as [Hk|[<-|[]]].
      * destruct (Hkeys _ Hk) as (j & Hj & E). exists j. split; [lia|exact E].
      * exists next_id. split; [lia|reflexivity].
Qed.

End RoundTrip.

Lemma values_combine {V} (ks : list string) (vs : list V) :
  List.length ks = List.length vs -> values (combine ks vs) = vs.
Proof.
  revert vs. induction ks as [|k ks IH]; intros [|v vs] H; simpl in *;
    try discriminate; [reflexivity|].
  f_equal. apply IH. now injection H.
Qed.

Lemma keys_combine {V} (ks : list string) (vs : list V) :
  List.length ks = List.length vs -> keys (combine ks vs) = ks.
Proof.
  revert vs. induction ks as [|k ks IH]; intros [|v vs] H; simpl in *;
    try discriminate; [reflexivity|].
  f_equal. apply IH. now injection H.
Qed.

(** Every named, constructed parameter converts back from its property. *)
Lemma convert_named (parameters : dict FunctionParameter) :
  Forall indexes_agree (values parameters) ->
  exists qs,
    Forall2 (fun kv q =>
               convert_param (JArr (map JStr (required_params parameters)))
                             (fst kv) (snd kv) = inr q)
            (map (fun p => (name p, build_property p)) (named parameters)) qs
    /\ Forall2 (fun p q =>
                  name q = name p /\ description q = description p
                  /\ type q = type p
                  /\ required q = str_in (name p) (required_params parameters)
                  /\ enum q = (if str_in (type p) ["string"; "number"; "integer"]
                               then enum p else [])
                  /\ items_type q = (if String.eqb (type p) "array"
                                     then items_type p else "string")
                  /\ indexes_agree q)
               (named parameters) qs.
Proof.
  intros Hall.
  assert (Hnamed : Forall indexes_agree (named parameters)).
  { rewrite Forall_forall in *. intros p Hp. apply Hall.
    unfold named in Hp. now apply filter_In in Hp. }
  clear Hall.
  generalize (required_params parameters) as names. intros names.
  induction Hnamed as [|p l Hp Hl IH].
  - exists []. split; constructor.
  - destruct IH as (qs & H1 & H2).
    destruct (convert_param_described names (build_property p) p
                (build_property_describes p) Hp) as (q & Hq & Hfields).
    exists (q :: qs). split; constructor; assumption.
Qed.

Lemma Forall2_impl_In {A B} (R R' : A -> B -> Prop) (l : list A) (l' : list B) :
  Forall2 R l l' ->
  (forall a b, In a l -> R a b -> R' a b) ->
  Forall2 R' l l'.
Proof.
  induction 1 as [|a b l l' Hab Hrest IH]; intros Himp; constructor.
  - apply Himp; [now left|assumption].
  - apply IH. intros a' b' Ha'. apply Himp. now right.
Qed.

Lemma Forall2_Forall_r {A B} (R : A -> B -> Prop) (P : A -> Prop)
  (Q : B -> Prop) (l : list A) (l' : list B) :
  Forall2 R l l' -> Forall P l ->
  (forall a b, P a -> R a b -> Q b) ->
  Forall Q l'.
Proof.
  induction 1 as [|a b l l' Hab Hrest IH]; intros HP Himp; constructor;
    inversion HP; subst.
  - now apply (Himp a).
  - now apply IH.
Qed.

(** C3, as amended.  Take a mapping of constructed parameters whose
    non-empty names are pairwise distinct, and an id source that never
    repeats an id.  Building the schema and converting it back succeeds and
    yields one parameter per named parameter, in mapping order (so those
    with an empty name are absent), with the same name, description, type
    and required flag; its enum list is the original one when the type is
    string, number or integer and empty otherwise; its items type is the
    original one when the type is array and ["string"] otherwise. *)
Theorem schema_round_trip
  (create_id : nat -> string) (json_dumps : json -> string)
  (json_loads : string -> result json)
  (schema_name : string) (function_name function_description : json)
  (parameters : dict FunctionParameter) (next_id : nat) :
  (forall i j, create_id i = create_id j -> i = j) ->
  Forall indexes_agree (values parameters) ->
  NoDup (map name (named parameters)) ->
  exists converted,
    convert_openai_function_to_aistream_dict
      create_id json_loads schema_name
      (inr (fst (build_json_schema json_dumps function_name
                                   function_description parameters)))
      next_id
    = inr ({| fn_name := Some function_name;
              fn_schema_name := Some schema_name;
              fn_description := Some function_description;
              fn_parameters := Some converted;
              fn_id := None |},
           next_id + List.length converted)
    /\ Forall2 round_trip_fields (named parameters) (values converted)
    /\ Forall (fun q => name q <> "") (values converted)
    /\ keys converted = map create_id (seq next_id (List.length converted)).
Proof.
  intros Hfresh Hall Hnd.
  destruct (convert_named parameters Hall) as (qs & Hconv & Hfields).
  assert (Hlen : List.length (map create_id (seq next_id (List.length qs)))
                 = List.length qs).
  { now rewrite length_map, length_seq. }
  exists (combine (map create_id (seq next_id (List.length qs))) qs).
  assert (Hcl : List.length
                  (combine (map create_id (seq next_id (List.length qs))) qs)
                = List.length qs).
  { rewrite length_combine, Hlen. apply Nat.min_id. }
  rewrite (values_combine _ _ Hlen), (keys_combine _ _ Hlen), Hcl.
  split; [|split; [|split; [|reflexivity]]].
  - pose proof (convert_params_append create_id Hfresh _ _ _ Hconv [] next_id)
      as Hloop.
    simpl in Hloop.
    unfold convert_openai_function_to_aistream_dict, build_json_schema,
      build_schema.
    cbn [fst bind ret get get_default dict_get String.eqb Ascii.eqb Bool.eqb].
    rewrite (build_properties_distinct _ Hnd).
    destruct (required_params parameters) as [|r rs] eqn:Er;
      cbn [nonempty_list map get_default getitem items dict_get dict_set
           String.eqb Ascii.eqb Bool.eqb bind ret] in Hloop |- *;
      (rewrite Hloop; [reflexivity | intros k []]).
  - apply (Forall2_impl_In _ _ _ _ Hfields).
    intros p q Hp (Hn & Hd & Ht & Hr & He & Hi & Hag).
    unfold round_trip_fields. repeat split; try assumption; try apply Hag.
    rewrite Hr. now apply required_params_distinct.
  - clear Hconv Hlen Hcl.
    assert (Hne : Forall (fun p => name p <> "") (named parameters)).
    { apply Forall_forall. intros p Hp. unfold named in Hp.
      apply filter_In in Hp. now apply nonempty_true. }
    apply (Forall2_Forall_r _ _ _ _ _ Hfields Hne).
    intros p q Hp (Hn & _). congruence.
Qed.

Lemma ticks_length (n : nat) : String.length (Samples.ticks n) = n.
Proof. induction n; simpl; congruence. Qed.

Lemma sample_create_id_fresh (i j : nat) :
  Samples.sample_create_id i = Samples.sample_create_id j -> i = j.
Proof.
  unfold Samples.sample_create_id. intros [= H].
  rewrite <- (ticks_length i), <- (ticks_length j). now rewrite H.
Qed.

Lemma schema_round_trip_witness :
  exists converted,
    convert_openai_function_to_aistream_dict
      Samples.sample_create_id Samples.reject_json_text "Weather"
      (inr (fst (build_json_schema Samples.blank_json_text (JStr "weather")
                                   (JStr "Look up the weather")
                                   Samples.sample_parameters)))
      0
    = inr ({| fn_name := Some (JStr "weather");
              fn_schema_name := Some "Weather";
              fn_description := Some (JStr "Look up the weather");
              fn_parameters := Some converted;
              fn_id := None |},
           0 + List.length converted)
    /\ Forall2 round_trip_fields (named Samples.sample_parameters)
                                 (values converted)
    /\ Forall (fun q => name q <> "") (values converted)
    /\ keys converted
       = map Samples.sample_create_id (seq 0 (List.length converted)).
Proof.
  apply (schema_round_trip
           Samples.sample_create_id Samples.blank_json_text
           Samples.reject_json_text "Weather" (JStr "weather")
           (JStr "Look up the weather") Samples.sample_parameters 0).
  - exact sample_create_id_fresh.
  - repeat constructor.
  - repeat constructor; simpl; intuition discriminate.
Defined.

(** C3, as stated, fails in three ways.  A boolean parameter loses its enum
    list; a string parameter gets the items type ["string"] back instead of
    its own; and of two parameters of one name only the later one comes
    back (flagged required if either was).  In each case the mapping holds
    a named parameter to which no converted parameter is identical in the
    six fields. *)
Lemma round_trip_not_identical :
  (exists f n q,
     Samples.round_trip [("p1", Samples.flag_param)] = inr (f, n)
     /\ fn_parameters f = Some [("p", q)]
     /\ enum Samples.flag_param = [JStr "yes"; JStr "no"] /\ enum q = []
     /\ ~ same_fields Samples.flag_param q)
  /\ (exists f n q,
        Samples.round_trip [("p1", Samples.label_param)] = inr (f, n)
        /\ fn_parameters f = Some [("p", q)]
        /\ items_type Samples.label_param = "number"
        /\ items_type q = "string"
        /\ ~ same_fields Samples.label_param q)
  /\ (exists f n q,
        Samples.round_trip [("p1", Samples.first_city_param);
                            ("p2", Samples.city_param)] = inr (f, n)
        /\ fn_parameters f = Some [("p", q)]
        /\ description Samples.first_city_param = "Departure"
        /\ description q = "City name"
        /\ ~ same_fields Samples.first_city_param q).
Proof.
  split; [|split]; do 3 eexists;
    (split; [vm_compute; reflexivity|]);
    (split; [reflexivity|]);
    (split; [reflexivity|]);
    (split; [reflexivity|]);
    unfold same_fields; simpl; intros (_ & Hd & _ & _ & He & Hi);
    discriminate.
Qed.

Lemma build_json_schema_shape_witness :
  exists prop,
    getitem (fst (build_json_schema Samples.blank_json_text (JStr "weather")
                                    (JStr "Look up the weather")
                                    Samples.sample_parameters))
            "parameters"
    = inr (JObj [ ("type", JStr "object");
                  ("properties",
                   JObj [ ("city",
                           JObj [ ("type", JStr "string");
                                  ("description", JStr "City name");
                                  ("enum", JArr [JStr "Paris"; JStr "Rome"]) ]);
                          ("tags", prop) ]);
                  ("required", JArr [JStr "city"]) ])
    /\ property_describes prop Samples.tags_param.
Proof.
  destruct (build_json_schema_shape
              Samples.blank_json_text (JStr "weather")
              (JStr "Look up the weather") Samples.sample_parameters)
    as (properties & parameters_object & Hschema & _ & Hprops & _ & Hget & _).
  vm_compute in Hschema. injection Hschema as <-.
  vm_compute in Hprops. injection Hprops as <-.
  destruct (Hget "tags" _ eq_refl) as (before & p & after & Hl & Hp & _ & Hd).
  eexists. split; [reflexivity|].
  assert (p = Samples.tags_param) as ->; [|exact Hd].
  destruct before as [|b0 [|b1 [|b2 before]]]; simpl in Hl;
    injection Hl; intros; subst; try discriminate; try reflexivity.
  destruct before; discriminate.
Defined.

End FunctionToolsProps.

(* ================================================================== *)
(** ** Further properties of the registry and of the response generator *)
(* ================================================================== *)

Module RegistryProps.
Import Messages Assistant PyProps AssistantProps.

Lemma keys_dict_set {V} (k : string) (v : V) (d : dict V) :
  keys (dict_set k v d)
  = if dict_mem k d then keys d else (keys d ++ [k])%list.
Proof.
  unfold dict_mem.
  induction d as [|[k' v'] d IH]; simpl; [reflexivity|].
  destruct (String.eqb k k') eqn:E; simpl; [reflexivity|].
  rewrite IH. now destruct (dict_get k d).
Qed.

Lemma dict_set_wf {V} (k : string) (v : V) (d : dict V) :
  wf_dict d -> wf_dict (dict_set k v d).
Proof.
  unfold wf_dict. intros Hwf. rewrite keys_dict_set.
  destruct (dict_mem k d) eqn:E; [assumption|].
  apply NoDup_app; [assumption|repeat constructor; intros []|].
  intros x Hx [Hk|[]]. subst x.
  unfold dict_mem in E.
  destruct (dict_get k d) eqn:G; [discriminate|].
  now apply dict_get_None_keys in G.
Qed.

(** Registering a class binds its name to it, keeps the binding of every
    other name, and keeps the registry free of repeated names.  Once
    [messages.py] is loaded, the registry binds each of the fifteen class
    names to its own class and binds nothing else. *)
Theorem registry_lookup :
  (forall cls registry k,
     dict_get k (register_message cls registry)
     = if String.eqb k (class_name cls) then Some cls else dict_get k registry)
  /\ (forall cls registry,
        wf_dict registry -> wf_dict (register_message cls registry))
  /\ wf_dict message_registry
  /\ (forall k cls,
        dict_get k message_registry = Some cls <-> k = class_name cls).
Proof.
  split; [|split; [|split]].
  - intros cls registry k. apply dict_get_set.
  - intros cls registry. apply dict_set_wf.
  - unfold message_registry.
    assert (H : forall l acc, wf_dict acc ->
                wf_dict (fold_left (fun registry cls =>
                                      register_message cls registry) l acc)).
    { induction l as [|c l IH]; intros acc Hacc; simpl; [assumption|].
      apply IH. now apply dict_set_wf. }
    apply H. constructor.
  - intros k cls. split.
    + intros H. apply dict_get_In in H. vm_compute in H.
      repeat (destruct H as [H|H]; [now injection H as <- <-|]).
      destruct H.
    + intros ->. now destruct cls.
Qed.

Lemma registry_lookup_witness :
  wf_dict (register_message Table [("Image", Image)])
  /\ dict_get "Slider" message_registry = Some Slider.
Proof.
  split.
  - apply (proj1 (proj2 registry_lookup) Table [("Image", Image)]).
    repeat constructor. intros [].
  - apply (proj2 (proj2 (proj2 registry_lookup)) "Slider" Slider).
    reflexivity.
Defined.

(** Whatever the registry holds, a call that returns hands back the counter
    it was given, except in the input-widget category, where it hands back
    the counter plus one. *)
Theorem counter_discipline
  (registry : dict MessageClass) (rnd : Draws) (user_message : string)
  (widget_counter : Z) (message : Message) (counter : Z) :
  generate_random_response registry rnd user_message widget_counter
  = inr (message, counter) ->
  counter = (if String.eqb (response_type rnd) "input_widget"
             then widget_counter + 1 else widget_counter)%Z
  /\ (widget_counter <= counter <= widget_counter + 1)%Z.
Proof.
  intros H.
  assert (Hc : counter = (if String.eqb (response_type rnd) "input_widget"
                          then widget_counter + 1 else widget_counter)%Z).
  { unfold generate_random_response in H.
    destruct (response_type_cases rnd) as [E|[E|E]]; rewrite E in *;
      simpl in H;
      repeat match type of H with
             | context [match dict_get ?k ?r with _ => _ end] =>
                 destruct (dict_get k r)
             | context [instantiate ?c ?a] => destruct (instantiate c a)
             end;
      simpl in H; try discriminate; now injection H as _ <-. }
  split; [exact Hc|].
  rewrite Hc. destruct (String.eqb (response_type rnd) "input_widget"); lia.
Qed.

Lemma counter_discipline_witness :
  exists message,
    generate_random_response [("NumberInputMessage", NumberInput)]
                             input_widget_draws "hello" 7
    = inr (message, 8%Z)
    /\ (7 <= 8 <= 7 + 1)%Z.
Proof.
  eexists. split; [reflexivity|].
  exact (proj2 (counter_discipline
                  [("NumberInputMessage", NumberInput)] input_widget_draws
                  "hello" 7 _ 8%Z eq_refl)).
Defined.

Lemma prefix_app (s q : string) : String.prefix s (s ++ q) = true.
Proof.
  induction s as [|a s IH]; simpl; [now destruct q|].
  destruct (ascii_dec a a); [assumption|congruence].
Qed.

Lemma is_substring_unfold (sub s : string) :
  is_substring sub s
  = if String.prefix sub s then true
    else match s with
         | EmptyString => false
         | String _ s' => is_substring sub s'
         end.
Proof. destruct s; reflexivity. Qed.

Lemma is_substring_app (s p q : string) : is_substring s (p ++ s ++ q) = true.
Proof.
  induction p as [|a p IH]; cbn [append].
  - rewrite is_substring_unfold. now rewrite prefix_app.
  - rewrite is_substring_unfold.
    destruct (String.prefix s (String a (p ++ s ++ q))); [reflexivity|].
    exact IH.
Qed.

Lemma append_empty (s : string) : s ++ "" = s.
Proof. induction s as [|a s IH]; simpl; congruence. Qed.

(** In the plain-text category the call returns, whatever the registry
    holds, an assistant text message with one of the ten templates and the
    counter unchanged; the first and the eighth template contain the user's
    message verbatim. *)
Theorem plain_text_reply
  (registry : dict MessageClass) (rnd : Draws) (user_message : string)
  (widget_counter : Z) :
  response_type rnd = "output" ->
  exists text,
    generate_random_response registry rnd user_message widget_counter
    = inr (TextMessage AssistantMessage (Some text), widget_counter)
    /\ In text (possible_messages user_message)
    /\ (message_draw rnd mod 10 = 0 \/ message_draw rnd mod 10 = 7 ->
        is_substring user_message text = true).
Proof.
  intros Hty. exists (selected_message rnd user_message).
  split; [|split].
  - unfold generate_random_response. rewrite Hty. reflexivity.
  - cbv beta iota delta [selected_message possible_messages].
    apply random_choice_In.
  - cbv beta iota delta [selected_message possible_messages random_choice].
    cbn [List.length].
    intros [H|H]; rewrite H; cbn [nth].
    + rewrite <- (append_empty user_message) at 2.
      apply (is_substring_app user_message "Thanks for sharing: " "").
    + apply (is_substring_app user_message "You said: " ". Let's explore that.").
Qed.

Lemma plain_text_reply_witness :
  exists text,
    generate_random_response message_registry
      {| response_type_draw := 1; message_draw := 7; widget_draw := 0;
         line_chart_data := JArr []; bar_chart_data := JArr [] |} "hello" 3
    = inr (TextMessage AssistantMessage (Some text), 3%Z)
    /\ In text (possible_messages "hello")
    /\ (7 mod 10 = 0 \/ 7 mod 10 = 7 -> is_substring "hello" text = true).
Proof.
  exact (plain_text_reply message_registry
           {| response_type_draw := 1; message_draw := 7; widget_draw := 0;
              line_chart_data := JArr []; bar_chart_data := JArr [] |}
           "hello" 3 eq_refl).
Defined.

Lemma str_of_int_inj (a b : Z) : str_of_int a = str_of_int b -> a = b.
Proof.
  unfold str_of_int. intros H.
  assert (Hnn : forall z, Z.to_int z <> Decimal.Pos Decimal.Nil
                          /\ Z.to_int z <> Decimal.Neg Decimal.Nil).
  { intros [|p|p]; simpl; split; try discriminate;
      intros E; injection E as E; now apply (Unsigned.to_uint_nonnil p). }
  apply (f_equal NilZero.int_of_string) in H.
  rewrite !NilZero.isi in H by apply Hnn.
  injection H as H. now apply to_int_inj.
Qed.

Lemma instantiate_input_widget (c : MessageClass) (args : list json)
  (cls : MessageClass) (config : json) (k : string) (value : json)
  (disabled block : bool) :
  instantiate c args = inr (InputWidget cls config k value disabled block) ->
  args = [config; JStr k].
Proof.
  unfold instantiate.
  destruct (base_class c); destruct args as [|a [|a' [|a'' rest]]];
    try discriminate;
    try (destruct a; discriminate);
    try (destruct a'; try discriminate).
  now intros [= _ <- <- _ _ _].
Qed.

(** An input widget comes back only in the input-widget category, and then
    with the key made from the counter that comes back with it. *)
Lemma input_widget_result
  (registry : dict MessageClass) (rnd : Draws) (user_message : string)
  (widget_counter : Z) (cls : MessageClass) (config : json) (k : string)
  (value : json) (disabled block : bool) (counter : Z) :
  generate_random_response registry rnd user_message widget_counter
  = inr (InputWidget cls config k value disabled block, counter) ->
  k = "widget_" ++ str_of_int counter /\ counter = (widget_counter + 1)%Z.
Proof.
  unfold generate_random_response. intros H.
  destruct (String.eqb (response_type rnd) "output"); [discriminate|].
  destruct (String.eqb (response_type rnd) "output_widget");
    destruct (dict_get _ registry) as [c|]; try discriminate;
    apply FunctionToolsProps.bind_inr in H; destruct H as (m & Hm & H);
    injection H as -> <-;
    apply instantiate_input_widget in Hm; try discriminate.
  injection Hm as _ <-. auto.
Qed.

(** Widget keys do not collide: when two calls return input widgets and the
    second was given a counter not below the one the first returned (as when
    the counter is threaded from call to call), the two keys differ. *)
Theorem widget_keys_distinct
  (registry : dict MessageClass) (rnd rnd' : Draws)
  (user_message user_message' : string) (widget_counter widget_counter' : Z)
  (cls cls' : MessageClass) (config config' : json) (k k' : string)
  (value value' : json) (disabled disabled' block block' : bool)
  (counter counter' : Z) :
  generate_random_response registry rnd user_message widget_counter
  = inr (InputWidget cls config k value disabled block, counter) ->
  generate_random_response registry rnd' user_message' widget_counter'
  = inr (InputWidget cls' config' k' value' disabled' block', counter') ->
  (counter <= widget_counter')%Z ->
  k <> k'.
Proof.
  intros H H' Hle.
  apply input_widget_result in H, H'.
  destruct H as [-> _], H' as [-> ->].
  intros [= E]. apply str_of_int_inj in E. lia.
Qed.

Lemma widget_keys_distinct_witness : "widget_8" <> "widget_9".
Proof.
  exact (widget_keys_distinct
           [("NumberInputMessage", NumberInput)]
           input_widget_draws input_widget_draws "hello" "again" 7 8
           _ _ _ _ _ _ _ _ _ _ _ _ 8%Z 9%Z eq_refl eq_refl (Z.le_refl 8)).
Defined.

End RegistryProps.

(* ================================================================== *)
(** ** Further properties of the function-schema editor *)
(* ================================================================== *)

Module EditorProps.
Import FunctionTools Session PyProps FunctionToolsProps RegistryProps.

Lemma keys_dict_remove_In {V} (k x : string) (d : dict V) :
  In x (keys (dict_remove k d)) -> In x (keys d).
Proof.
  induction d as [|[k' v'] d IH]; simpl; [auto|].
  destruct (String.eqb k k'); simpl; intuition.
Qed.

Lemma dict_remove_wf {V} (k : string) (d : dict V) :
  wf_dict d -> wf_dict (dict_remove k d).
Proof.
  unfold wf_dict.
  induction d as [|[k' v'] d IH]; simpl; intros Hwf; [constructor|].
  inversion Hwf as [|? ? Hnotin Hwf']; subst.
  destruct (String.eqb k k'); simpl; [now apply IH|].
  constructor; [|now apply IH].
  intros Hin. apply Hnotin. now apply keys_dict_remove_In in Hin.
Qed.

Lemma convert_params_wf (create_id : nat -> string) (required : json)
  (properties : dict json) :
  forall converted next_id res,
    wf_dict converted ->
    convert_params create_id required properties converted next_id = inr res ->
    wf_dict (fst res).
Proof.
  induction properties as [|[param_name param] rest IH];
    intros converted next_id res Hwf H; simpl in H.
  - now injection H as <-.
  - apply bind_inr in H. destruct H as (p & _ & H).
    apply (IH _ _ _ (dict_set_wf _ _ _ Hwf) H).
Qed.

Lemma add_properties_wf (l : list FunctionParameter) :
  forall acc, wf_dict acc -> wf_dict (fold_left add_property l acc).
Proof.
  induction l as [|x l IH]; intros acc Hwf; simpl; [assumption|].
  apply IH. unfold add_property.
  destruct (negb (nonempty (name x))); [assumption|now apply dict_set_wf].
Qed.

(** No id is ever bound twice: [add_parameter] and [remove_parameter] keep
    a mapping free of repeated ids, the mapping
    [convert_openai_function_to_aistream_dict] returns is free of them
    whatever ids [create_id] hands out, and the properties of a built
    schema never hold a name twice. *)
Theorem ids_stay_unique :
  (forall create_id f next_id ps f' next_id' ps',
     fn_parameters f = Some ps -> wf_dict ps ->
     add_parameter create_id f next_id = inr (f', next_id') ->
     fn_parameters f' = Some ps' -> wf_dict ps')
  /\ (forall f param_id ps f' ps',
        fn_parameters f = Some ps -> wf_dict ps ->
        remove_parameter f param_id = inr f' ->
        fn_parameters f' = Some ps' -> wf_dict ps')
  /\ (forall create_id json_loads schema_name schema next_id f next_id' ps,
        convert_openai_function_to_aistream_dict
          create_id json_loads schema_name schema next_id = inr (f, next_id') ->
        fn_parameters f = Some ps -> wf_dict ps)
  /\ (forall parameters, wf_dict (build_properties parameters)).
Proof.
  split; [|split; [|split]].
  - intros create_id f next_id ps f' next_id' ps' Hps Hwf H Hps'.
    destruct (add_parameter_inr create_id f next_id ps Hps) as (p & Hadd & _).
    rewrite Hadd in H. injection H as <- _. simpl in Hps'.
    injection Hps' as <-. now apply dict_set_wf.
  - intros f param_id ps f' ps' Hps Hwf H Hps'.
    unfold remove_parameter, dict_del in H. rewrite Hps in H. simpl in H.
    destruct (dict_mem param_id ps); [|discriminate].
    simpl in H. injection H as <-. simpl in Hps'. injection Hps' as <-.
    now apply dict_remove_wf.
  - intros create_id json_loads schema_name schema next_id f next_id' ps H Hps.
    unfold convert_openai_function_to_aistream_dict in H.
    repeat invert_bind H.
    injection H as <- _. simpl in Hps. injection Hps as <-.
    eapply convert_params_wf; [|eassumption]. constructor.
  - intros parameters. apply add_properties_wf. constructor.
Qed.

Lemma ids_stay_unique_witness :
  wf_dict [("p1", Samples.city_param); ("p3", Samples.tags_param)].
Proof.
  exact (proj1 (proj2 ids_stay_unique)
           Samples.sample_function "p2" Samples.sample_parameters
           _ _ eq_refl
           ltac:(repeat constructor; simpl; intuition discriminate)
           eq_refl eq_refl).
Defined.

Lemma dict_get_app_fresh {V} (k : string) (v : V) (d : dict V) :
  dict_get k (d ++ [(k, v)])%list
  = match dict_get k d with Some v' => Some v' | None => Some v end.
Proof.
  induction d as [|[k' v'] d IH]; simpl.
  - now rewrite String.eqb_refl.
  - destruct (String.eqb k k'); [reflexivity|assumption].
Qed.

Lemma dict_remove_app_fresh {V} (k : string) (v : V) (d : dict V) :
  dict_get k d = None -> dict_remove k (d ++ [(k, v)])%list = d.
Proof.
  intros H. unfold dict_remove. rewrite filter_app. simpl.
  rewrite String.eqb_refl. simpl. rewrite app_nil_r.
  apply dict_get_None_keys in H. now apply dict_remove_absent.
Qed.

(** Adding a parameter under an id the mapping does not hold appends a
    blank, required string parameter and leaves every entry as it was;
    removing that id again gives the function back as it was before. *)
Theorem add_then_remove_parameter
  (create_id : nat -> string) (f : FunctionDict)
  (ps : dict FunctionParameter) (next_id : nat) :
  fn_parameters f = Some ps ->
  dict_get (create_id next_id) ps = None ->
  exists p f',
    add_parameter create_id f next_id = inr (f', S next_id)
    /\ fn_parameters f' = Some (ps ++ [(create_id next_id, p)])%list
    /\ name p = "" /\ description p = "" /\ type p = "string"
    /\ required p = true /\ enum p = [] /\ items_type p = "string"
    /\ remove_parameter f' (create_id next_id) = inr f.
Proof.
  intros Hps Hfresh.
  destruct (add_parameter_inr create_id f next_id ps Hps)
    as (p & Hadd & Hn & Hd & Ht & Hr & He & Hi & _).
  rewrite (dict_set_fresh _ _ _ Hfresh) in Hadd.
  exists p. eexists. split; [exact Hadd|].
  split; [reflexivity|].
  repeat (split; [assumption|]).
  unfold remove_parameter, dict_del, dict_mem. simpl.
  rewrite dict_get_app_fresh, Hfresh. simpl.
  rewrite (dict_remove_app_fresh _ _ _ Hfresh).
  destruct f. simpl in *. now subst.
Qed.

Lemma add_then_remove_parameter_witness :
  exists p f',
    add_parameter Samples.sample_create_id Samples.sample_function 4
    = inr (f', 5)
    /\ fn_parameters f'
       = Some (Samples.sample_parameters ++ [("piiii", p)])%list
    /\ name p = "" /\ description p = "" /\ type p = "string"
    /\ required p = true /\ enum p = [] /\ items_type p = "string"
    /\ remove_parameter f' "piiii" = inr Samples.sample_function.
Proof.
  exact (add_then_remove_parameter
           Samples.sample_create_id Samples.sample_function
           Samples.sample_parameters 4 eq_refl eq_refl).
Defined.

(** [remove_parameter] raises exactly when there is nothing to delete (no
    ["parameters"] key, or no entry under the id), and then [KeyError]. *)
Theorem remove_parameter_missing (f : FunctionDict) (param_id : string) :
  (remove_parameter f param_id = inl KeyError
   <-> fn_parameters f = None
       \/ exists ps, fn_parameters f = Some ps /\ dict_get param_id ps = None)
  /\ (forall e, remove_parameter f param_id = inl e -> e = KeyError).
Proof.
  unfold remove_parameter, dict_del, dict_mem.
  destruct (fn_parameters f) as [ps|]; simpl.
  - destruct (dict_get param_id ps) as [p|] eqn:G; simpl.
    + split; [|discriminate].
      split; [discriminate|].
      intros [H|(ps' & H & H')]; [discriminate|].
      injection H as <-. congruence.
    + split; [|now intros e [= <-]].
      split; [|reflexivity]. intros _. right. eauto.
  - split; [|now intros e [= <-]].
    split; [|reflexivity]. intros _. now left.
Qed.

(** *** Parameters without a name *)

Lemma add_properties_named (l : list FunctionParameter) :
  forall acc,
    fold_left add_property l acc
    = fold_left add_property (filter (fun p => nonempty (name p)) l) acc.
Proof.
  induction l as [|x l IH]; intros acc; simpl; [reflexivity|].
  destruct (nonempty (name x)) eqn:E; simpl.
  - apply IH.
  - rewrite (add_property_unnamed _ _ E). apply IH.
Qed.

Lemma filter_andb {A} (f g : A -> bool) (l : list A) :
  filter (fun x => f x && g x) l = filter f (filter g l).
Proof.
  induction l as [|x l IH]; simpl; [reflexivity|].
  destruct (g x); simpl; rewrite ?andb_true_r, ?andb_false_r;
    [destruct (f x)|]; now rewrite IH.
Qed.

Lemma required_params_named (parameters : dict FunctionParameter) :
  required_params parameters = map name (filter required (named parameters)).
Proof. unfold required_params, named. now rewrite filter_andb. Qed.

Lemma build_schema_named (function_name function_description : json)
  (ps ps' : dict FunctionParameter) :
  named ps = named ps' ->
  build_schema function_name function_description ps
  = build_schema function_name function_description ps'.
Proof.
  intros H. unfold build_schema, build_properties.
  rewrite !required_params_named, (add_properties_named (values ps)),
    (add_properties_named (values ps')).
  fold (named ps). fold (named ps'). now rewrite H.
Qed.

(** A parameter without a name leaves no trace in the schema: two mappings
    whose named parameters are the same, in the same order, build the same
    schema and the same JSON text.  So the parameter that [add_parameter]
    appends under a new id changes nothing in the schema until it is given
    a name. *)
Theorem unnamed_parameters_leave_no_trace
  (json_dumps : json -> string) (function_name function_description : json) :
  (forall ps ps',
     named ps = named ps' ->
     build_json_schema json_dumps function_name function_description ps
     = build_json_schema json_dumps function_name function_description ps')
  /\ (forall create_id f next_id ps,
        fn_parameters f = Some ps ->
        dict_get (create_id next_id) ps = None ->
        exists f' ps',
          add_parameter create_id f next_id = inr (f', S next_id)
          /\ fn_parameters f' = Some ps'
          /\ build_json_schema json_dumps function_name function_description
                               ps'
             = build_json_schema json_dumps function_name function_description
                                 ps).
Proof.
  split.
  - intros ps ps' H. unfold build_json_schema.
    now rewrite (build_schema_named _ _ ps ps' H).
  - intros create_id f next_id ps Hps Hfresh.
    destruct (add_parameter_inr create_id f next_id ps Hps)
      as (p & Hadd & Hn & _).
    rewrite (dict_set_fresh _ _ _ Hfresh) in Hadd.
    eexists. eexists. split; [exact Hadd|]. split; [reflexivity|].
    unfold build_json_schema.
    rewrite (build_schema_named _ _ (ps ++ [(create_id next_id, p)])%list ps);
      [reflexivity|].
    unfold named, values. rewrite map_app, filter_app. simpl.
    rewrite Hn. simpl. apply app_nil_r.
Qed.

Lemma unnamed_parameters_leave_no_trace_witness :
  exists f' ps',
    add_parameter Samples.sample_create_id Samples.sample_function 4
    = inr (f', 5)
    /\ fn_parameters f' = Some ps'
    /\ build_json_schema Samples.blank_json_text (JStr "weather") (JStr "")
                         ps'
       = build_json_schema Samples.blank_json_text (JStr "weather") (JStr "")
                           Samples.sample_parameters.
Proof.
  exact (proj2 (unnamed_parameters_leave_no_trace
                  Samples.blank_json_text (JStr "weather") (JStr ""))
           Samples.sample_create_id Samples.sample_function 4
           Samples.sample_parameters eq_refl eq_refl).
Defined.

(** *** Round trips through the schema *)

(** What building and converting back gives for constructed parameters with
    distinct names and ids that never repeat. *)
Lemma round_trip_core
  (create_id : nat -> string) (json_loads : string -> result json)
  (schema_name : string) (function_name function_description : json)
  (parameters : dict FunctionParameter) (next_id : nat) :
  (forall i j, create_id i = create_id j -> i = j) ->
  Forall indexes_agree (values parameters) ->
  NoDup (map name (named parameters)) ->
  exists converted,
    convert_openai_function_to_aistream_dict
      create_id json_loads schema_name
      (inr (build_schema function_name function_description parameters))
      next_id
    = inr ({| fn_name := Some function_name;
              fn_schema_name := Some schema_name;
              fn_description := Some function_description;
              fn_parameters := Some converted;
              fn_id := None |},
           next_id + List.length converted)
    /\ Forall2 round_trip_fields (named parameters) (values converted).
Proof.
  intros Hfresh Hall Hnd.
  destruct (convert_named parameters Hall) as (qs & Hconv & Hfields).
  assert (Hlen : List.length (map create_id (seq next_id (List.length qs)))
                 = List.length qs).
  { now rewrite length_map, length_seq. }
  exists (combine (map create_id (seq next_id (List.length qs))) qs).
  assert (Hcl : List.length
                  (combine (map create_id (seq next_id (List.length qs))) qs)
                = List.length qs).
  { rewrite length_combine, Hlen. apply Nat.min_id. }
  rewrite (values_combine _ _ Hlen), Hcl.
  split.
  - pose proof (convert_params_append create_id Hfresh _ _ _ Hconv [] next_id)
      as Hloop.
    simpl in Hloop.
    unfold convert_openai_function_to_aistream_dict, build_schema.
    cbn [fst bind ret get get_default dict_get String.eqb Ascii.eqb Bool.eqb].
    rewrite (build_properties_distinct _ Hnd).
    destruct (required_params parameters) as [|r rs] eqn:Er;
      cbn [nonempty_list map get_default getitem items dict_get dict_set
           String.eqb Ascii.eqb Bool.eqb bind ret] in Hloop |- *;
      (rewrite Hloop; [reflexivity | intros k []]).
  - apply (Forall2_impl_In _ _ _ _ Hfields).
    intros p q Hp (Hn & Hd & Ht & Hr & He & Hi & Hag).
    unfold round_trip_fields. repeat split; try assumption; try apply Hag.
    rewrite Hr. now apply required_params_distinct.
Qed.

Lemma build_property_round_trip (p q : FunctionParameter) :
  round_trip_fields p q -> build_property q = build_property p.
Proof.
  intros (Hn & Hd & Ht & Hr & He & Hi & _).
  unfold build_property. rewrite Ht, Hd, He, Hi.
  destruct (str_in (type p) ["string"; "number"; "integer"]);
    destruct (String.eqb (type p) "array"); reflexivity.
Qed.

Lemma Forall2_map_eq {A B C} (f : A -> C) (g : B -> C)
  (l : list A) (l' : list B) :
  Forall2 (fun a b => g b = f a) l l' -> map g l' = map f l.
Proof. induction 1; simpl; congruence. Qed.

Lemma Forall2_weaken {A B} (R R' : A -> B -> Prop) (l : list A) (l' : list B) :
  (forall a b, R a b -> R' a b) -> Forall2 R l l' -> Forall2 R' l l'.
Proof. intros H. induction 1; constructor; auto. Qed.

Lemma filter_all {A} (f : A -> bool) (l : list A) :
  Forall (fun x => f x = true) l -> filter f l = l.
Proof.
  induction 1 as [|x l Hx Hl IH]; simpl; [reflexivity|].
  now rewrite Hx, IH.
Qed.

Lemma Forall2_filter_names (l qs : list FunctionParameter) :
  Forall2 round_trip_fields l qs ->
  map name (filter required qs) = map name (filter required l).
Proof.
  induction 1 as [|p q l qs (Hn & _ & _ & Hr & _) Hrest IH]; simpl;
    [reflexivity|].
  rewrite Hr. destruct (required p); simpl; congruence.
Qed.

(** The schema is a fixed point of the round trip: for constructed
    parameters with distinct names (and ids that never repeat), converting
    the built schema back and building again gives the same schema and the
    same JSON text. *)
Theorem schema_fixed_point
  (create_id : nat -> string) (json_dumps : json -> string)
  (json_loads : string -> result json)
  (schema_name : string) (function_name function_description : json)
  (parameters : dict FunctionParameter) (next_id : nat) :
  (forall i j, create_id i = create_id j -> i = j) ->
  Forall indexes_agree (values parameters) ->
  NoDup (map name (named parameters)) ->
  exists f next_id' converted,
    convert_openai_function_to_aistream_dict
      create_id json_loads schema_name
      (inr (fst (build_json_schema json_dumps function_name
                                   function_description parameters)))
      next_id
    = inr (f, next_id')
    /\ fn_parameters f = Some converted
    /\ build_json_schema json_dumps function_name function_description
                         converted
       = build_json_schema json_dumps function_name function_description
                           parameters.
Proof.
  intros Hfresh Hall Hnd.
  destruct (round_trip_core create_id json_loads schema_name function_name
              function_description parameters next_id Hfresh Hall Hnd)
    as (converted & Hconv & Hfields).
  do 3 eexists. split; [exact Hconv|]. split; [reflexivity|].
  assert (Hnames : map name (values converted) = map name (named parameters)).
  { apply Forall2_map_eq.
    apply (Forall2_weaken _ _ _ _ (fun p q H => proj1 H) Hfields). }
  assert (Hnamed : named converted = values converted).
  { unfold named. apply filter_all.
    assert (Hne : Forall (fun p => nonempty (name p) = true)
                         (named parameters)).
    { apply Forall_forall. intros p Hp. unfold named in Hp.
      now apply filter_In in Hp. }
    apply (Forall2_Forall_r _ _ _ _ _ Hfields Hne).
    intros p q Hp (Hn & _). now rewrite Hn. }
  assert (Hschema : build_schema function_name function_description converted
                    = build_schema function_name function_description
                                   parameters).
  { unfold build_schema.
    rewrite !required_params_named, Hnamed,
      (Forall2_filter_names _ _ Hfields).
    rewrite (build_properties_distinct parameters Hnd).
    rewrite (build_properties_distinct converted)
      by (rewrite Hnamed, Hnames; exact Hnd).
    rewrite Hnamed.
    assert (Hprops : map (fun p => (name p, build_property p))
                         (values converted)
                     = map (fun p => (name p, build_property p))
                           (named parameters)).
    { apply Forall2_map_eq.
      apply (Forall2_weaken _ _ _ _
               (fun p q H => f_equal2 pair (proj1 H)
                               (build_property_round_trip p q H)) Hfields). }
    now rewrite Hprops. }
  unfold build_json_schema. now rewrite Hschema.
Qed.

Lemma schema_fixed_point_witness :
  exists f next_id' converted,
    convert_openai_function_to_aistream_dict
      Samples.sample_create_id Samples.reject_json_text "Weather"
      (inr (fst (build_json_schema Samples.blank_json_text (JStr "weather")
                                   (JStr "Look up the weather")
                                   Samples.sample_parameters)))
      0
    = inr (f, next_id')
    /\ fn_parameters f = Some converted
    /\ build_json_schema Samples.blank_json_text (JStr "weather")
                         (JStr "Look up the weather") converted
       = build_json_schema Samples.blank_json_text (JStr "weather")
                           (JStr "Look up the weather")
                           Samples.sample_parameters.
Proof.
  apply (schema_fixed_point
           Samples.sample_create_id Samples.blank_json_text
           Samples.reject_json_text "Weather" (JStr "weather")
           (JStr "Look up the weather") Samples.sample_parameters 0).
  - exact sample_create_id_fresh.
  - repeat constructor.
  - repeat constructor; simpl; intuition discriminate.
Defined.

(** What [parameter_input] returns is normalised, and a mapping of
    normalised, constructed parameters with distinct names goes through the
    schema and back with all six fields of every named parameter intact. *)
Theorem edited_parameters_round_trip :
  (forall ui param param_id p,
     parameter_input ui param param_id = inr p ->
     normalised p /\ indexes_agree p)
  /\ (forall create_id json_dumps json_loads schema_name function_name
             function_description parameters next_id,
        (forall i j, create_id i = create_id j -> i = j) ->
        Forall (fun p => normalised p /\ indexes_agree p) (values parameters) ->
        NoDup (map name (named parameters)) ->
        exists f next_id' converted,
          convert_openai_function_to_aistream_dict
            create_id json_loads schema_name
            (inr (fst (build_json_schema json_dumps function_name
                                         function_description parameters)))
            next_id
          = inr (f, next_id')
          /\ fn_parameters f = Some converted
          /\ Forall2 same_fields (named parameters) (values converted)).
Proof.
  split.
  - intros ui param param_id p H.
    apply parameter_input_inr in H.
    destruct H as (_ & _ & Ht & _ & He & Hi & Hag).
    split; [|exact Hag]. split.
    + intros E. rewrite Ht in E. now rewrite E in He.
    + intros E. rewrite Ht in E. apply String.eqb_neq in E.
      now rewrite E in Hi.
  - intros create_id json_dumps json_loads schema_name function_name
      function_description parameters next_id Hfresh Hall Hnd.
    assert (Hag : Forall indexes_agree (values parameters)).
    { apply (Forall_impl _ (fun p H => proj2 H) Hall). }
    destruct (round_trip_core create_id json_loads schema_name function_name
                function_description parameters next_id Hfresh Hag Hnd)
      as (converted & Hconv & Hfields).
    do 3 eexists. split; [exact Hconv|]. split; [reflexivity|].
    apply (Forall2_impl_In _ _ _ _ Hfields).
    intros p q Hp (Hn & Hd & Ht & Hr & He & Hi & _).
    assert (Hnorm : normalised p).
    { rewrite Forall_forall in Hall. apply Hall.
      unfold named in Hp. now apply filter_In in Hp. }
    destruct Hnorm as [Hen Hit].
    unfold same_fields. repeat split; try assumption.
    + rewrite He.
      destruct (str_in (type p) ["string"; "number"; "integer"]);
        [reflexivity|]. symmetry. now apply Hen.
    + rewrite Hi. destruct (String.eqb (type p) "array") eqn:E;
        [reflexivity|]. apply String.eqb_neq in E. symmetry. now apply Hit.
Qed.

Lemma edited_parameters_round_trip_witness :
  exists f next_id' converted,
    convert_openai_function_to_aistream_dict
      Samples.sample_create_id Samples.reject_json_text "Weather"
      (inr (fst (build_json_schema Samples.blank_json_text (JStr "weather")
                                   (JStr "Look up the weather")
                                   Samples.sample_parameters)))
      0
    = inr (f, next_id')
    /\ fn_parameters f = Some converted
    /\ Forall2 same_fields (named Samples.sample_parameters)
                           (values converted).
Proof.
  apply (proj2 edited_parameters_round_trip
           Samples.sample_create_id Samples.blank_json_text
           Samples.reject_json_text "Weather" (JStr "weather")
           (JStr "Look up the weather") Samples.sample_parameters 0).
  - exact sample_create_id_fresh.
  - repeat constructor; simpl; intros; congruence.
  - repeat constructor; simpl; intuition discriminate.
Defined.

(** *** Conversion of an arbitrary schema *)

Lemma convert_params_inr (create_id : nat -> string) (required : json)
  (properties : dict json) :
  forall converted next_id res,
    convert_params create_id required properties converted next_id = inr res ->
    exists qs,
      Forall2 (fun kv q => convert_param required (fst kv) (snd kv) = inr q)
              properties qs.
Proof.
  induction properties as [|[param_name param] rest IH];
    intros converted next_id res H; simpl in H.
  - exists []. constructor.
  - apply bind_inr in H. destruct H as (q & Hq & H).
    destruct (IH _ _ _ H) as (qs & Hqs).
    exists (q :: qs). now constructor.
Qed.

(** What one converted parameter owes to its property. *)
Lemma convert_param_inr (required : json) (param_name : string) (param : json)
  (q : FunctionParameter) :
  convert_param required param_name param = inr q ->
  name q = param_name
  /\ getitem param "description" = inr (JStr (description q))
  /\ getitem param "type" = inr (JStr (type q))
  /\ contains required param_name = inr (FunctionTools.required q)
  /\ get_default param "enum" (JArr []) = inr (JArr (enum q))
  /\ (exists its,
        get_default param "items" (JObj []) = inr its
        /\ get_default its "type" (JStr "string") = inr (JStr (items_type q)))
  /\ indexes_agree q.
Proof.
  unfold convert_param. intros H.
  repeat invert_bind H.
  apply new_FunctionParameter_inr in H.
  destruct H as (Hn & Hd & Ht & Hr & He & Hi & Hag).
  destruct a as [| | | |desc| |]; try discriminate. injection Ha9 as <-.
  destruct a0 as [| | | |ty| |]; try discriminate. injection Ha5 as <-.
  destruct a2 as [| | | | |en|]; try discriminate. injection Ha10 as <-.
  destruct a4 as [| | | |it| |]; try discriminate. injection Ha7 as <-.
  subst. repeat split; try assumption; try apply Hag.
  exists a3. split; assumption.
Qed.

(** A successful conversion follows the schema's properties one by one (ids
    that never repeat assumed): the mapping has one parameter per property,
    in the order of the properties, under consecutive ids; each parameter is
    named by its property's key, carries the property's description, type,
    enum (none: the empty list) and items type (none: ["string"]), and is
    required exactly when its name is in the schema's required list. *)
Theorem conversion_follows_properties
  (create_id : nat -> string) (json_loads : string -> result json)
  (schema_name : string) (schema : json) (next_id : nat)
  (f : FunctionDict) (next_id' : nat) :
  (forall i j, create_id i = create_id j -> i = j) ->
  convert_openai_function_to_aistream_dict
    create_id json_loads schema_name (inr schema) next_id = inr (f, next_id') ->
  exists parameters required properties converted,
    get schema "parameters" = inr parameters
    /\ get_default parameters "required" (JArr []) = inr required
    /\ getitem parameters "properties" = inr (JObj properties)
    /\ fn_parameters f = Some converted
    /\ fn_schema_name f = Some schema_name
    /\ fn_id f = None
    /\ next_id' = next_id + List.length properties
    /\ keys converted = map create_id (seq next_id (List.length properties))
    /\ map name (values converted) = keys properties
    /\ Forall2 (fun kv q =>
                  getitem (snd kv) "description" = inr (JStr (description q))
                  /\ getitem (snd kv) "type" = inr (JStr (type q))
                  /\ contains required (fst kv)
                     = inr (FunctionTools.required q)
                  /\ get_default (snd kv) "enum" (JArr [])
                     = inr (JArr (enum q))
                  /\ indexes_agree q)
               properties (values converted).
Proof.
  intros Hfresh H.
  unfold convert_openai_function_to_aistream_dict in H.
  cbn [bind ret] in H.
  repeat invert_bind H.
  injection H as <- <-.
  rename a1 into parameters, a2 into required, a4 into properties.
  destruct a3 as [| | | | | |d]; try discriminate.
  injection Ha4 as <-.
  destruct (convert_params_inr _ _ _ _ _ _ Ha5) as (qs & Hqs).
  pose proof (convert_params_append create_id Hfresh _ _ _ Hqs [] next_id)
    as Hloop.
  rewrite Hloop in Ha5 by (intros k []).
  injection Ha5 as <-. simpl fst. simpl snd. cbn [app].
  assert (Hlen : List.length qs = List.length d).
  { symmetry. apply (Forall2_length Hqs). }
  assert (Hlen' : List.length (map create_id (seq next_id (List.length qs)))
                  = List.length qs).
  { now rewrite length_map, length_seq. }
  exists parameters, required, d,
    (combine (map create_id (seq next_id (List.length qs))) qs).
  rewrite (values_combine _ _ Hlen'), (keys_combine _ _ Hlen'), Hlen.
  repeat split; try assumption; try reflexivity.
  - apply (Forall2_map_eq fst name).
    apply (Forall2_weaken _ _ _ _
             (fun kv q H => proj1 (convert_param_inr _ _ _ _ H)) Hqs).
  - apply (Forall2_weaken _ _ _ _
             (fun kv q H =>
                let P := convert_param_inr _ _ _ _ H in
                conj (proj1 (proj2 P))
                  (conj (proj1 (proj2 (proj2 P)))
                     (conj (proj1 (proj2 (proj2 (proj2 P))))
                        (conj (proj1 (proj2 (proj2 (proj2 (proj2 P)))))
                           (proj2 (proj2 (proj2 (proj2 (proj2 (proj2 P))))))))))
             Hqs).
Qed.

Lemma conversion_follows_properties_witness :
  exists f next_id',
    convert_openai_function_to_aistream_dict
      Samples.sample_create_id Samples.reject_json_text "Weather"
      (inr (fst (build_json_schema Samples.blank_json_text (JStr "weather")
                                   (JStr "Look up the weather")
                                   Samples.sample_parameters)))
      0
    = inr (f, next_id')
    /\ exists parameters required properties converted,
         get (fst (build_json_schema Samples.blank_json_text (JStr "weather")
                                     (JStr "Look up the weather")
                                     Samples.sample_parameters))
             "parameters" = inr parameters
         /\ get_default parameters "required" (JArr []) = inr required
         /\ getitem parameters "properties" = inr (JObj properties)
         /\ fn_parameters f = Some converted
         /\ fn_schema_name f = Some "Weather"
         /\ fn_id f = None
         /\ next_id' = 0 + List.length properties
         /\ keys converted
            = map Samples.sample_create_id (seq 0 (List.length properties))
         /\ map name (values converted) = keys properties
         /\ Forall2 (fun kv q =>
                       getitem (snd kv) "description"
                       = inr (JStr (description q))
                       /\ getitem (snd kv) "type" = inr (JStr (type q))
                       /\ contains required (fst kv)
                          = inr (FunctionTools.required q)
                       /\ get_default (snd kv) "enum" (JArr [])
                          = inr (JArr (enum q))
                       /\ indexes_agree q)
                    properties (values converted).
Proof.
  do 2 eexists. split; [vm_compute; reflexivity|].
  apply (conversion_follows_properties
           Samples.sample_create_id Samples.reject_json_text "Weather"
           _ 0 _ _ sample_create_id_fresh).
  vm_compute. reflexivity.
Defined.

Lemma convert_params_raises (create_id : nat -> string) (required : json)
  (before after : dict json) (param_name : string) (param : json) (e : exn) :
  Forall (fun kv => exists q,
            convert_param required (fst kv) (snd kv) = inr q) before ->
  convert_param required param_name param = inl e ->
  forall converted next_id,
    convert_params create_id required
                   (before ++ (param_name, param) :: after)%list
                   converted next_id
    = inl e.
Proof.
  induction 1 as [|[k p] before [q Hq] Hrest IH]; intros He converted next_id;
    simpl.
  - now rewrite He.
  - simpl in Hq. rewrite Hq. simpl. now apply IH.
Qed.

Lemma index_inl (x : string) (l : list string) (e : exn) :
  index x l = inl e -> e = ValueError.
Proof.
  induction l as [|y l IH]; simpl; [now intros [= <-]|].
  destruct (String.eqb x y); [discriminate|].
  destruct (index x l); simpl; [|discriminate].
  intros [= <-]. now apply IH.
Qed.

(** How a conversion fails.  Text that [json.loads] rejects raises what
    [json.loads] raises.  A schema dict without ["parameters"] raises
    [AttributeError]; a ["parameters"] dict without ["properties"] raises
    [KeyError]; a property without ["description"], or with one but without
    ["type"], raises [KeyError]; a property whose type is not in
    [PARAM_TYPES] raises [ValueError]; and the first property that fails
    fails the whole conversion.  A schema with no property at all converts
    to a function without parameters. *)
Theorem conversion_failures
  (create_id : nat -> string) (json_loads : string -> result json)
  (schema_name : string) (next_id : nat) :
  (forall text e,
     json_loads text = inl e ->
     convert_openai_function_to_aistream_dict
       create_id json_loads schema_name (inl text) next_id = inl e)
  /\ (forall d,
        dict_get "parameters" d = None ->
        convert_openai_function_to_aistream_dict
          create_id json_loads schema_name (inr (JObj d)) next_id
        = inl AttributeError)
  /\ (forall d pd,
        dict_get "parameters" d = Some (JObj pd) ->
        dict_get "properties" pd = None ->
        convert_openai_function_to_aistream_dict
          create_id json_loads schema_name (inr (JObj d)) next_id
        = inl KeyError)
  /\ (forall d pd,
        dict_get "parameters" d = Some (JObj pd) ->
        dict_get "properties" pd = Some (JObj []) ->
        exists f,
          convert_openai_function_to_aistream_dict
            create_id json_loads schema_name (inr (JObj d)) next_id
          = inr (f, next_id)
          /\ fn_parameters f = Some [])
  /\ (forall required param_name pd,
        dict_get "description" pd = None ->
        convert_param required param_name (JObj pd) = inl KeyError)
  /\ (forall required param_name pd description,
        dict_get "description" pd = Some description ->
        dict_get "type" pd = None ->
        convert_param required param_name (JObj pd) = inl KeyError)
  /\ (forall names param_name pd description t,
        dict_get "description" pd = Some description ->
        dict_get "type" pd = Some (JStr t) ->
        dict_get "items" pd = None ->
        ~ In t PARAM_TYPES ->
        convert_param (JArr names) param_name (JObj pd) = inl ValueError)
  /\ (forall d pd required before after param_name param e,
        dict_get "parameters" d = Some (JObj pd) ->
        get_default (JObj pd) "required" (JArr []) = inr required ->
        dict_get "properties" pd
        = Some (JObj (before ++ (param_name, param) :: after)%list) ->
        Forall (fun kv => exists q,
                  convert_param required (fst kv) (snd kv) = inr q) before ->
        convert_param required param_name param = inl e ->
        convert_openai_function_to_aistream_dict
          create_id json_loads schema_name (inr (JObj d)) next_id
        = inl e).
Proof.
  repeat split.
  - intros text e H. unfold convert_openai_function_to_aistream_dict.
    now rewrite H.
  - intros d H. unfold convert_openai_function_to_aistream_dict, get,
      get_default. simpl. now rewrite H.
  - intros d pd H H'. unfold convert_openai_function_to_aistream_dict, get,
      get_default, getitem. simpl. now rewrite H, H'.
  - intros d pd H H'. unfold convert_openai_function_to_aistream_dict, get,
      get_default, getitem. simpl. rewrite H, H'. simpl.
    eexists. split; reflexivity.
  - intros required param_name pd H. unfold convert_param, getitem.
    now rewrite H.
  - intros required param_name pd description H H'.
    unfold convert_param, getitem. now rewrite H, H'.
  - intros names param_name pd description t H H' Hit Hnot.
    unfold convert_param, getitem, get_default, contains.
    rewrite H, H', Hit. cbn [bind ret as_str dict_get].
    destruct (index t PARAM_TYPES) as [e|i] eqn:E.
    + cbn [bind]. f_equal. exact (index_inl _ _ _ E).
    + exfalso. apply Hnot. now apply index_inr_In in E.
  - intros d pd required before after param_name param e H Hreq Hprops Hbefore He.
    unfold convert_openai_function_to_aistream_dict, get, getitem.
    cbn [bind ret get_default]. rewrite H. cbn [bind ret].
    rewrite Hreq. cbn [bind ret]. rewrite Hprops. cbn [bind ret items].
    now rewrite (convert_params_raises create_id required before after
                   param_name param e Hbefore He).
Qed.

Lemma conversion_failures_witness :
  convert_openai_function_to_aistream_dict
    Samples.sample_create_id Samples.reject_json_text "Weather"
    (inr (JObj [("name", JStr "weather")])) 0
  = inl AttributeError
  /\ convert_openai_function_to_aistream_dict
       Samples.sample_create_id Samples.reject_json_text "Weather"
       (inl "{name:") 0
     = inl JSONDecodeError
  /\ convert_param (JArr []) "city"
       (JObj [("description", JStr "City name"); ("type", JStr "text")])
     = inl ValueError.
Proof.
  pose proof (conversion_failures Samples.sample_create_id
                Samples.reject_json_text "Weather" 0) as H.
  split; [|split].
  - apply (proj1 (proj2 H)). reflexivity.
  - apply (proj1 H). reflexivity.
  - apply (proj1 (proj2 (proj2 (proj2 (proj2 (proj2 (proj2 H)))))))
      with (description := JStr "City name") (t := "text"); try reflexivity.
    simpl. intuition discriminate.
Defined.

(** *** The enum box *)

Lemma split_plain (e : string) : count "," e = 0 -> split "," e = [e].
Proof.
  induction e as [|c e IH]; simpl; [reflexivity|].
  destruct (Ascii.eqb c ","); [discriminate|].
  intros H. now rewrite (IH H).
Qed.

Lemma split_app_comma (a b : string) :
  count "," a = 0 -> split "," (a ++ String "," b) = a :: split "," b.
Proof.
  induction a as [|c a IH]; simpl; [reflexivity|].
  destruct (Ascii.eqb c ","); [discriminate|].
  intros H. now rewrite (IH H).
Qed.

Lemma count_app (c : ascii) (a b : string) :
  count c (a ++ b) = count c a + count c b.
Proof.
  induction a as [|x a IH]; simpl; [reflexivity|].
  destruct (Ascii.eqb x c); simpl; now rewrite IH.
Qed.

Lemma lstrip_id (s : string) : starts_with_space s = false -> lstrip s = s.
Proof. destruct s as [|c s]; simpl; [reflexivity|]. now intros ->. Qed.

Lemma rstrip_id (s : string) : ends_with_space s = false -> rstrip s = s.
Proof.
  induction s as [|c s IH]; simpl; [reflexivity|].
  destruct s as [|c' s].
  - simpl. now intros ->.
  - intros H. rewrite (IH H). reflexivity.
Qed.

Lemma lstrip_app_space (pfx s : string) :
  all_space pfx = true -> lstrip (pfx ++ s) = lstrip s.
Proof.
  induction pfx as [|c pfx IH]; simpl; [reflexivity|].
  intros H. apply andb_true_iff in H. destruct H as [Hc Hp].
  now rewrite Hc, IH.
Qed.

Lemma strip_padded (pfx e : string) :
  all_space pfx = true -> plain_entry e -> strip (pfx ++ e) = e.
Proof.
  intros Hp (_ & Hs & He). unfold strip.
  now rewrite (lstrip_app_space _ _ Hp), (lstrip_id _ Hs), (rstrip_id _ He).
Qed.

Lemma append_assoc (a b c : string) : (a ++ b) ++ c = a ++ b ++ c.
Proof. induction a as [|x a IH]; simpl; congruence. Qed.

Lemma join_cons (sep w w' : string) (ws : list string) :
  join sep (w :: w' :: ws) = w ++ sep ++ join sep (w' :: ws).
Proof. reflexivity. Qed.

Lemma split_join_plain (l : list string) :
  Forall plain_entry l -> l <> [] ->
  forall pfx,
    all_space pfx = true -> count "," pfx = 0 ->
    map strip (split "," (pfx ++ join ", " l)) = l.
Proof.
  induction 1 as [|e l He Hl IH]; intros Hne pfx Hp Hc; [congruence|].
  destruct l as [|e' l].
  - cbn [join]. rewrite split_plain.
    + simpl. now rewrite strip_padded.
    + rewrite count_app, Hc. now destruct He.
  - rewrite join_cons.
    change (pfx ++ e ++ ", " ++ join ", " (e' :: l))
      with (pfx ++ e ++ String "," (" " ++ join ", " (e' :: l))).
    rewrite <- append_assoc.
    rewrite split_app_comma by (rewrite count_app, Hc; now destruct He).
    cbn [map]. rewrite strip_padded by assumption.
    f_equal. apply IH; [discriminate|reflexivity|reflexivity].
Qed.

Lemma join_json_strings (sep : string) (l : list string) :
  join_json sep (map JStr l) = inr (join sep l).
Proof.
  induction l as [|w l IH]; [reflexivity|].
  destruct l as [|w' l]; [reflexivity|].
  change (join_json sep (map JStr (w :: w' :: l)))
    with (x <- as_str TypeError (JStr w) ;;
          r <- join_json sep (map JStr (w' :: l)) ;;
          ret (x ++ sep ++ r)).
  now rewrite IH.
Qed.

Lemma join_nonempty (sep : string) (l : list string) :
  sep <> "" -> l <> [] -> l <> [""] -> join sep l <> "".
Proof.
  intros Hsep Hne Hne'.
  destruct l as [|w [|w' l]]; [congruence| |].
  - simpl. congruence.
  - rewrite join_cons. destruct w; simpl; [|discriminate].
    destruct sep; [congruence|discriminate].
Qed.

(** An enum box left as it is drawn gives the enum list back: the box shows
    the entries joined with [", "], and parsing that text returns the same
    entries, provided none holds a comma or starts or ends with whitespace.
    The one exception is the list holding just the empty string, which is
    drawn as an empty box and comes back as the empty list.  An entry with
    a comma comes back split in two, and an entry that starts with a
    no-break space (0xa0) comes back without it. *)
Theorem untouched_enum_box :
  (forall l, join_json ", " (map JStr l) = inr (join ", " l))
  /\ (forall l, Forall plain_entry l -> l <> [""] -> untouched_enum l = l)
  /\ untouched_enum [""] = []
  /\ untouched_enum ["a,b"] = ["a"; "b"]
  /\ untouched_enum [String (ascii_of_nat 160) "x"] = ["x"]
  /\ (forall ui param param_id p l,
        enum param = map JStr l ->
        Forall plain_entry l -> l <> [""] ->
        str_in (type_select ui) ["string"; "number"; "integer"] = true ->
        enum_input ui = join ", " l ->
        parameter_input ui param param_id = inr p ->
        enum p = enum param).
Proof.
  assert (Hround : forall l, Forall plain_entry l -> l <> [""] ->
                             untouched_enum l = l).
  { intros l Hl Hne. unfold untouched_enum, parse_enum.
    destruct l as [|e l]; [reflexivity|].
    assert (Hj : join ", " (e :: l) <> "").
    { apply join_nonempty; [discriminate|discriminate|assumption]. }
    apply nonempty_true in Hj. rewrite Hj.
    apply (split_join_plain (e :: l) Hl ltac:(discriminate) ""); reflexivity. }
  split; [exact (join_json_strings ", ")|].
  split; [exact Hround|].
  split; [reflexivity|]. split; [reflexivity|]. split; [reflexivity|].
  intros ui param param_id p l He Hl Hne Hty Hin H.
  apply parameter_input_inr in H.
  destruct H as (_ & _ & _ & _ & Hen & _).
  rewrite Hty, Hin in Hen. rewrite Hen, He. f_equal.
  now apply Hround.
Qed.

Lemma untouched_enum_box_witness :
  untouched_enum ["Paris"; "New York"; ""] = ["Paris"; "New York"; ""].
Proof.
  apply (proj1 (proj2 untouched_enum_box)); [|discriminate].
  repeat constructor.
Defined.

End EditorProps.

(* ================================================================== *)
(** ** Further properties of loading, adding and removing functions *)
(* ================================================================== *)

Module SessionProps.
Import FunctionTools Session PyProps FunctionToolsProps RegistryProps
       EditorProps.

Section Loading.

Set Default Proof Using "Type".

Variable create_id : nat -> string.
Variable json_dumps : json -> string.
Variable json_loads : string -> result json.

(** Loading a function that has a row: when the requested id is not the
    active one and the row's schema converts, the converted function, named
    after the row and tagged with the id, becomes the current function; the
    rest of the session state is kept, and outside expert mode that
    function is what the call returns. *)
Theorem get_function_found
  (store : string -> result Item) (ui : EditorWidgets) (app_state : AppState)
  (function_id : string) (next_id : nat)
  (item : Item) (f : FunctionDict) (next_id' : nat) :
  needs_reloading app_state function_id = true ->
  store function_id = inr item ->
  convert_openai_function_to_aistream_dict
    create_id json_loads (item_name item) (inr (item_value item)) next_id
  = inr (f, next_id') ->
  let outcome := get_function create_id json_dumps json_loads store
                              ui app_state function_id next_id in
  fst outcome = set_current_function app_state (set_id f function_id)
  /\ fn_schema_name (current_function (fst outcome)) = Some (item_name item)
  /\ fn_id (current_function (fst outcome)) = Some function_id
  /\ fn_parameters (current_function (fst outcome)) = fn_parameters f
  /\ (expert_mode ui = false ->
      snd outcome = inr (set_id f function_id, next_id')).
Proof.
  intros Hreload Hstore Hconv outcome.
  assert (Hout : outcome
                 = (set_current_function app_state (set_id f function_id),
                    selected_function create_id json_dumps json_loads ui
                      (set_id f function_id) next_id')).
  { unfold outcome, get_function, reload_function.
    rewrite Hreload, Hstore. cbn [bind ret]. rewrite Hconv. reflexivity. }
  rewrite Hout. cbn [fst snd].
  split; [reflexivity|].
  unfold convert_openai_function_to_aistream_dict in Hconv.
  repeat invert_bind Hconv. injection Hconv as <- _.
  repeat split.
  intros Hmode. unfold selected_function. now rewrite Hmode.
Qed.

(** Only the missing row is forgiven.  When the table raises anything else,
    or the row's schema does not convert, [get_function] raises that
    exception and the session state is as before the call. *)
Theorem get_function_raises
  (store : string -> result Item) (ui : EditorWidgets) (app_state : AppState)
  (function_id : string) (next_id : nat) :
  needs_reloading app_state function_id = true ->
  (forall e,
     store function_id = inl e -> e <> DoesNotExist ->
     get_function create_id json_dumps json_loads store
                  ui app_state function_id next_id
     = (app_state, inl e))
  /\ (forall item e,
        store function_id = inr item ->
        convert_openai_function_to_aistream_dict
          create_id json_loads (item_name item) (inr (item_value item)) next_id
        = inl e ->
        get_function create_id json_dumps json_loads store
                     ui app_state function_id next_id
        = (app_state, inl e)).
Proof.
  intros Hreload. split.
  - intros e Hstore Hne. unfold get_function, reload_function.
    rewrite Hreload, Hstore. destruct e; try reflexivity. congruence.
  - intros item e Hstore Hconv. unfold get_function, reload_function.
    rewrite Hreload, Hstore. cbn [bind ret]. now rewrite Hconv.
Qed.

Lemma reload_makes_active (store : string -> result Item)
  (app_state : AppState) (function_id : string) (next_id : nat)
  (res : AppState * nat) :
  reload_function create_id json_loads store app_state function_id next_id
  = inr res ->
  needs_reloading (fst res) function_id = false.
Proof.
  unfold reload_function. intros H.
  repeat invert_bind H. injection H as <-.
  unfold needs_reloading. simpl. now rewrite String.eqb_refl.
Qed.

(** A loaded function is not loaded again.  Once a call for an id has
    returned, a further call for the same id does not read the table (so it
    sees none of the changes made there since) and leaves the session state
    as the first call left it; outside expert mode it returns the current
    function. *)
Theorem get_function_loads_once
  (store store' : string -> result Item) (ui ui' : EditorWidgets)
  (app_state : AppState) (function_id : string) (next_id next_id' : nat)
  (returned : FunctionDict * nat) :
  snd (get_function create_id json_dumps json_loads store
                    ui app_state function_id next_id) = inr returned ->
  let loaded := fst (get_function create_id json_dumps json_loads store
                                  ui app_state function_id next_id) in
  fst (get_function create_id json_dumps json_loads store'
                    ui' loaded function_id next_id') = loaded
  /\ (expert_mode ui' = false ->
      snd (get_function create_id json_dumps json_loads store'
                        ui' loaded function_id next_id')
      = inr (current_function loaded, next_id')).
Proof.
  intros Hret loaded.
  assert (Hactive : needs_reloading loaded function_id = false).
  { unfold loaded. unfold get_function in *.
    destruct (needs_reloading app_state function_id) eqn:E.
    - destruct (reload_function create_id json_loads store
                  app_state function_id next_id) as [e|[st n]] eqn:R.
      + simpl in Hret. discriminate.
      + simpl. exact (reload_makes_active _ _ _ _ _ R).
    - simpl. exact E. }
  unfold get_function. rewrite Hactive. cbn [ret fst snd].
  split; [reflexivity|].
  intros Hmode. unfold selected_function. now rewrite Hmode.
Qed.

End Loading.

Lemma get_function_found_witness :
  exists f next_id',
    convert_openai_function_to_aistream_dict
      Samples.sample_create_id Samples.reject_json_text "Weather"
      (inr (item_value Samples.weather_item)) 0
    = inr (f, next_id')
    /\ let outcome := get_function Samples.sample_create_id
                         Samples.blank_json_text Samples.reject_json_text
                         Samples.sample_store Samples.sample_editor
                         Samples.sample_app_state "f7" 0 in
       fst outcome
       = set_current_function Samples.sample_app_state (set_id f "f7")
       /\ fn_schema_name (current_function (fst outcome)) = Some "Weather"
       /\ fn_id (current_function (fst outcome)) = Some "f7"
       /\ fn_parameters (current_function (fst outcome)) = fn_parameters f
       /\ (expert_mode Samples.sample_editor = false ->
           snd outcome = inr (set_id f "f7", next_id')).
Proof.
  do 2 eexists. split; [vm_compute; reflexivity|].
  apply (get_function_found
           Samples.sample_create_id Samples.blank_json_text
           Samples.reject_json_text Samples.sample_store Samples.sample_editor
           Samples.sample_app_state "f7" 0 Samples.weather_item);
    reflexivity.
Defined.

Lemma get_function_raises_witness :
  get_function Samples.sample_create_id Samples.blank_json_text
               Samples.reject_json_text Samples.sample_store
               Samples.sample_editor Samples.sample_app_state "f8" 0
  = (Samples.sample_app_state, inl AttributeError).
Proof.
  apply (proj2 (get_function_raises
                  Samples.sample_create_id Samples.blank_json_text
                  Samples.reject_json_text Samples.sample_store
                  Samples.sample_editor Samples.sample_app_state "f8" 0
                  eq_refl)
           Samples.broken_item);
    reflexivity.
Defined.

Lemma get_function_loads_once_witness :
  let loaded := fst (get_function Samples.sample_create_id
                       Samples.blank_json_text Samples.reject_json_text
                       Samples.empty_store Samples.sample_editor
                       Samples.sample_app_state "f1" 0) in
  fst (get_function Samples.sample_create_id
         Samples.blank_json_text Samples.reject_json_text
         (fun _ => inl KeyError) Samples.sample_editor loaded "f1" 0)
  = loaded
  /\ (expert_mode Samples.sample_editor = false ->
      snd (get_function Samples.sample_create_id
             Samples.blank_json_text Samples.reject_json_text
             (fun _ => inl KeyError) Samples.sample_editor loaded "f1" 0)
      = inr (current_function loaded, 0)).
Proof.
  exact (get_function_loads_once
           Samples.sample_create_id Samples.blank_json_text
           Samples.reject_json_text Samples.empty_store
           (fun _ => inl KeyError) Samples.sample_editor Samples.sample_editor
           Samples.sample_app_state "f1" 0 0 _ eq_refl).
Defined.

(** *** The list of functions *)

Lemma rebuild_lookup {V} (l : list (string * V)) :
  wf_dict l ->
  forall acc k,
    dict_get k (fold_left (fun d kv => dict_set (fst kv) (snd kv) d) l acc)
    = match dict_get k l with
      | Some v => Some v
      | None => dict_get k acc
      end.
Proof.
  unfold wf_dict.
  induction l as [|[k' v'] l IH]; intros Hwf acc k; simpl; [reflexivity|].
  inversion Hwf as [|? ? Hnotin Hwf']; subst.
  rewrite (IH Hwf'). simpl. rewrite dict_get_set.
  destruct (String.eqb k k') eqn:E; [|reflexivity].
  apply String.eqb_eq in E. subst k'.
  apply dict_get_None_keys in Hnotin. now rewrite Hnotin.
Qed.

Lemma rebuild_append {V} (l : list (string * V)) :
  forall acc,
    wf_dict (acc ++ l)%list ->
    fold_left (fun d kv => dict_set (fst kv) (snd kv) d) l acc
    = (acc ++ l)%list.
Proof.
  unfold wf_dict, keys.
  induction l as [|[k v] l IH]; intros acc Hwf; simpl.
  - now rewrite app_nil_r.
  - rewrite map_app in Hwf. simpl in Hwf.
    assert (Hfresh : dict_get k acc = None).
    { apply dict_get_None_keys. intros Hin.
      apply NoDup_remove_2 in Hwf. apply Hwf. apply in_or_app. now left. }
    rewrite (dict_set_fresh _ _ _ Hfresh).
    rewrite IH; [now rewrite <- app_assoc|].
    rewrite !map_app, <- app_assoc. simpl. exact Hwf.
Qed.

(** [add_function] puts the new function, named ["NewFunction"], in front
    of the list and keeps every listed function with its name and place
    (the list free of repeated ids, the new id not in it); the rest of the
    session state is untouched.  Should [create_id] return an id that is
    already listed, that function keeps its name. *)
Theorem add_function_in_front
  (create_id : nat -> string) (app_state : AppState) (next_id : nat) :
  wf_dict (functions app_state) ->
  (dict_get (create_id next_id) (functions app_state) = None ->
   add_function create_id app_state next_id
   = (set_functions app_state
        ((create_id next_id, "NewFunction") :: functions app_state),
      S next_id))
  /\ (forall k,
        dict_get k (functions (fst (add_function create_id app_state next_id)))
        = match dict_get k (functions app_state) with
          | Some listed => Some listed
          | None => if String.eqb k (create_id next_id)
                    then Some "NewFunction" else None
          end)
  /\ current_function (fst (add_function create_id app_state next_id))
     = current_function app_state
  /\ chat_history (fst (add_function create_id app_state next_id))
     = chat_history app_state.
Proof.
  intros Hwf. split; [|split; [|split; reflexivity]].
  - intros Hfresh. unfold add_function, set_functions. f_equal. f_equal.
    cbn [fold_left fst snd dict_set].
    apply (rebuild_append (functions app_state)
             [(create_id next_id, "NewFunction")]).
    unfold wf_dict. simpl. constructor; [|exact Hwf].
    now apply dict_get_None_keys.
  - intros k. unfold add_function. cbn [fst functions fold_left snd dict_set].
    rewrite (rebuild_lookup _ Hwf). simpl.
    now destruct (dict_get k (functions app_state)).
Qed.

Lemma add_function_in_front_witness :
  add_function Samples.sample_create_id Samples.listing_app_state 2
  = (set_functions Samples.listing_app_state
       [("pii", "NewFunction"); ("f9", "NewFunction"); ("f7", "Weather");
        ("f8", "Broken")], 3).
Proof.
  apply (proj1 (add_function_in_front
                  Samples.sample_create_id Samples.listing_app_state 2
                  ltac:(repeat constructor; simpl; intuition discriminate))).
  reflexivity.
Defined.

(** [remove_function] takes the function off the list first and reads the
    table second.  An id that is not listed raises [KeyError] and changes
    nothing.  A listed function without a row (added, never saved) is taken
    off the list and then [DoesNotExist] is raised, the table untouched.  A
    listed function with a row is taken off the list and its row deleted,
    after which the table raises [DoesNotExist] for the id; every other
    listed function and every other row stays. *)
Theorem remove_function_cases
  (app_state : AppState) (table : dict Item) (function_id : string) :
  (dict_get function_id (functions app_state) = None ->
   remove_function app_state table function_id
   = ((app_state, table), inl KeyError))
  /\ (forall listed,
        dict_get function_id (functions app_state) = Some listed ->
        dict_get function_id table = None ->
        remove_function app_state table function_id
        = ((set_functions app_state
              (dict_remove function_id (functions app_state)), table),
           inl DoesNotExist))
  /\ (forall listed item,
        dict_get function_id (functions app_state) = Some listed ->
        dict_get function_id table = Some item ->
        remove_function app_state table function_id
        = ((set_functions app_state
              (dict_remove function_id (functions app_state)),
            dict_remove function_id table),
           inr tt))
  /\ dict_get function_id (dict_remove function_id (functions app_state))
     = None
  /\ table_get (dict_remove function_id table) function_id = inl DoesNotExist
  /\ (forall k,
        k <> function_id ->
        dict_get k (dict_remove function_id (functions app_state))
        = dict_get k (functions app_state)
        /\ table_get (dict_remove function_id table) k = table_get table k).
Proof.
  unfold remove_function, dict_del, dict_mem, table_get.
  split; [|split; [|split; [|split; [|split]]]].
  - intros H. now rewrite H.
  - intros listed H H'. now rewrite H, H'.
  - intros listed item H H'. now rewrite H, H'.
  - apply dict_get_remove_eq.
  - now rewrite dict_get_remove_eq.
  - intros k Hk. now rewrite !dict_get_remove_neq by assumption.
Qed.

Lemma remove_function_cases_witness :
  remove_function Samples.listing_app_state Samples.sample_table "f9"
  = ((set_functions Samples.listing_app_state
        [("f7", "Weather"); ("f8", "Broken")], Samples.sample_table),
     inl DoesNotExist)
  /\ remove_function Samples.listing_app_state Samples.sample_table "f7"
     = ((set_functions Samples.listing_app_state
           [("f9", "NewFunction"); ("f8", "Broken")],
         [("f8", Samples.broken_item)]),
        inr tt)
  /\ remove_function Samples.listing_app_state Samples.sample_table "f1"
     = ((Samples.listing_app_state, Samples.sample_table), inl KeyError).
Proof.
  split; [|split].
  - apply (proj1 (proj2 (remove_function_cases
                           Samples.listing_app_state Samples.sample_table
                           "f9")) "NewFunction"); reflexivity.
  - apply (proj1 (proj2 (proj2 (remove_function_cases
                                  Samples.listing_app_state
                                  Samples.sample_table "f7")))
             "Weather" Samples.weather_item); reflexivity.
  - apply (proj1 (remove_function_cases
                    Samples.listing_app_state Samples.sample_table "f1")).
    reflexivity.
Defined.

End SessionProps.
